(** * gof/result.py: the [Result] value node and [PythonResult]

    A shallow embedding of [src/gof/result.py].  Python objects live in a
    store and are named by their address, which plays the role of [id()];
    the methods of the classes are computations in a state-and-exception
    monad over that store. *)

From Stdlib Require Import ZArith.
From stdpp Require Import base gmap strings list pretty.

Local Open Scope Z_scope.

(** ** Python values *)

(** [id(obj)]. *)
Definition addr := positive.

(** A reference to a host object, as held in the data slot. *)
Inductive pyref :=
| PyNone
| PyObj (a : addr).

Global Instance pyref_eq_dec : EqDecision pyref.
Proof. solve_decision. Defined.

(** [x is y] on references. *)
Definition py_is (x y : pyref) : bool := bool_decide (x = y).

(** What a caller may pass as a name. *)
Inductive pyval :=
| VNone
| VStr (s : string)
| VOther (r : addr).

(** The exception classes that occur. [HostError] stands for whatever a
    filter of a subclass raises on data it refuses. *)
Inductive exn :=
| AbstractFunctionError
| ValueError
| TypeError
| NameError
| AttributeError
| HostError (tag : nat).

Global Instance exn_eq_dec : EqDecision exn.
Proof. solve_decision. Defined.

(** Result state keywords (classes [Empty], [Allocated], [Computed]). *)
Inductive State :=
| Empty
| Allocated
| Computed.

Global Instance State_eq_dec : EqDecision State.
Proof. solve_decision. Defined.

(** The classes of nodes: [Result] itself, [PythonResult], and a subclass
    of [Result] that overrides [filter] and nothing else. *)
Inductive pyclass :=
| ResultClass
| PythonResultClass
| FilteringClass (flt : pyref -> exn + pyref).

(** The slots of a [Result] ([__slots__]); [_data] is the single cell of
    the one-element list. *)
Record ResultObj := mkResult {
  klass : pyclass;
  _role : option (addr * Z);
  _data : pyref;
  state : State;
  _name : option string;
  _hash_id : Z
}.

(** What this module uses of an owner: the text of its class and its
    list of outputs. *)
Record OpObj := mkOp {
  op_class : string;
  outputs : list addr
}.

(** Host objects: immutable atoms and mutable containers of references. *)
Inductive HostObj :=
| HAtom (z : Z)
| HList (items : list pyref).

(** The store. [filter_calls] records every invocation of a [filter]
    override (node, argument), most recent first; [hashgen_calls] counts
    the calls made to [utils.hashgen]. *)
Record World := mkWorld {
  results : gmap addr ResultObj;
  ops : gmap addr OpObj;
  host : gmap addr HostObj;
  filter_calls : list (addr * pyref);
  hashgen_calls : nat
}.

(** ** The monad *)

Definition M (A : Type) : Type := World -> (exn + A) * World.

Definition ret {A} (x : A) : M A := fun w => (inr x, w).

Definition raise {A} (e : exn) : M A := fun w => (inl e, w).

Definition bind {A B} (m : M A) (k : A -> M B) : M B :=
  fun w => match m w with
           | (inr x, w') => k x w'
           | (inl e, w') => (inl e, w')
           end.

Notation "'let*' x ':=' m 'in' k" := (bind m (fun x => k))
  (at level 10, x pattern, m at level 100, k at level 200).
Notation "m ';;' k" := (bind m (fun _ => k))
  (at level 100, k at level 200, right associativity).

(** [try: m except e: h]. *)
Definition try_except {A} (m : M A) (e : exn) (h : M A) : M A :=
  fun w => match m w with
           | (inl e', w') => if decide (e' = e) then h w' else (inl e', w')
           | r => r
           end.

(** ** Slot access *)

(** Reading a slot of something that is not a [Result] is an
    [AttributeError]. *)
Definition load (self : addr) : M ResultObj :=
  fun w => match results w !! self with
           | Some r => (inr r, w)
           | None => (inl AttributeError, w)
           end.

(** The store with the object at [self] replaced. *)
Definition put_result (self : addr) (r : ResultObj) (w : World) : World :=
  mkWorld (<[self := r]> (results w)) (ops w) (host w)
          (filter_calls w) (hashgen_calls w).

(** The store with the host object at [a] replaced, or added. *)
Definition put_host (a : addr) (o : HostObj) (w : World) : World :=
  mkWorld (results w) (ops w) (<[a := o]> (host w))
          (filter_calls w) (hashgen_calls w).

Definition update (self : addr) (f : ResultObj -> ResultObj) : M unit :=
  fun w => match results w !! self with
           | Some r => (inr tt, put_result self (f r) w)
           | None => (inl AttributeError, w)
           end.

Definition with_role (v : option (addr * Z)) (r : ResultObj) : ResultObj :=
  mkResult (klass r) v (_data r) (state r) (_name r) (_hash_id r).

Definition with_data (v : pyref) (r : ResultObj) : ResultObj :=
  mkResult (klass r) (_role r) v (state r) (_name r) (_hash_id r).

Definition with_state (v : State) (r : ResultObj) : ResultObj :=
  mkResult (klass r) (_role r) (_data r) v (_name r) (_hash_id r).

Definition with_name (v : option string) (r : ResultObj) : ResultObj :=
  mkResult (klass r) (_role r) (_data r) (state r) v (_hash_id r).

Definition with_hash_id (v : Z) (r : ResultObj) : ResultObj :=
  mkResult (klass r) (_role r) (_data r) (state r) (_name r) v.

(** [self._role = v], [self._data[0] = v], [self.state = v],
    [self._name = v], [self._hash_id = v]. *)
Definition set__role (self : addr) (v : option (addr * Z)) : M unit :=
  update self (with_role v).

Definition set__data (self : addr) (v : pyref) : M unit :=
  update self (with_data v).

Definition set_state (self : addr) (v : State) : M unit :=
  update self (with_state v).

Definition set__name (self : addr) (v : option string) : M unit :=
  update self (with_name v).

Definition set__hash_id (self : addr) (v : Z) : M unit :=
  update self (with_hash_id v).

Definition load_op (owner : addr) : M OpObj :=
  fun w => match ops w !! owner with
           | Some o => (inr o, w)
           | None => (inl AttributeError, w)
           end.

(** ** Equality, hash *)

(** [__eq__]: [self is other]. *)
Definition Result_eq (self other : addr) : bool := bool_decide (self = other).

(** [__ne__]: [self is not other]. *)
Definition Result_ne (self other : addr) : bool := negb (bool_decide (self = other)).

(** [__cmp__]: [cmp(id(self), id(other))]. *)
Definition Result_cmp (self other : addr) : comparison := Pos.compare self other.

(** [__hash__]. *)
Definition Result_hash (self : addr) : M Z :=
  let* r := load self in ret (_hash_id r).

(** [desc]. *)
Definition desc (self : addr) : addr := self.

(** ** data *)

(** [__get_data]. *)
Definition get_data (self : addr) : M pyref :=
  let* r := load self in ret (_data r).

(** [Result.filter], the base method. *)
Definition Result_filter (data : pyref) : M pyref := raise AbstractFunctionError.

(** The store with one more recorded call of a [filter] override. *)
Definition record_call (self : addr) (data : pyref) (w : World) : World :=
  mkWorld (results w) (ops w) (host w)
          ((self, data) :: filter_calls w) (hashgen_calls w).

(** [self.filter(data)], resolved on the class of [self]; a call that
    reaches an override is recorded. *)
Definition filter (self : addr) (data : pyref) : M pyref :=
  let* r := load self in
  match klass r with
  | FilteringClass flt =>
      fun w => (flt data, record_call self data w)
  | ResultClass | PythonResultClass => Result_filter data
  end.

(** [__set_data]. *)
Definition set_data (self : addr) (data : pyref) : M unit :=
  let* r := load self in
  if py_is data (_data r) then ret tt
  else if py_is data PyNone then
    set__data self PyNone ;;
    set_state self Empty
  else
    let* data := try_except (filter self data) AbstractFunctionError (ret data) in
    set__data self data ;;
    set_state self Computed.

(** ** The parameters of the embedding

    [utils.hashgen] is imported from a module that is not part of these
    sources: [hashgen n] is what its [n]-th call returns.  [py_str] is
    [str()] on host data. *)

Section Result.

Variable hashgen : nat -> Z.
Variable py_str : pyref -> string.

(** ** name *)

(** [list.index]: the position of the first element equal to [x];
    elements are compared with [__eq__], that is by identity. *)
Fixpoint list_index (l : list addr) (x : addr) : option nat :=
  match l with
  | [] => None
  | y :: l' => if Result_eq y x then Some 0%nat
               else option_map S (list_index l' x)
  end.

Definition index_of (l : list addr) (x : addr) : M nat :=
  match list_index l x with
  | Some i => ret i
  | None => raise ValueError
  end.

(** Truth value of [self._name]: [None] and the empty string are false. *)
Definition name_truthy (n : option string) : bool :=
  match n with
  | Some s => negb (bool_decide (s = ""))
  | None => false
  end.

(** [__get_owner], [__get_index]. *)
Definition get_owner (self : addr) : M (option addr) :=
  let* r := load self in
  match _role r with
  | None => ret None
  | Some role => ret (Some (fst role))
  end.

Definition get_index (self : addr) : M (option Z) :=
  let* r := load self in
  match _role r with
  | None => ret None
  | Some role => ret (Some (snd role))
  end.

(** [__get_role]. *)
Definition get_role (self : addr) : M (option (addr * Z)) :=
  let* r := load self in ret (_role r).

(** [__get_name]. *)
Definition get_name (self : addr) : M (option string) :=
  let* r := load self in
  if name_truthy (_name r) then ret (_name r)
  else match _role r with
       | Some _ =>
           let* o := get_owner self in
           match o with
           | Some owner =>
               let* op := load_op owner in
               let* i := index_of (outputs op) self in
               ret (Some (op_class op +:+ "." +:+ pretty i))
           | None => raise AttributeError
           end
       | None => ret None
       end.

(** [__set_name]. *)
Definition set_name (self : addr) (name : pyval) : M unit :=
  match name with
  | VNone => set__name self None
  | VStr s => set__name self (Some s)
  | VOther _ => raise TypeError
  end.

(** ** String representation *)

(** [__str__]. *)
Definition Result_str (self : addr) : M string :=
  let* name := get_name self in
  let* r := load self in
  if name_truthy name then
    if decide (state r = Computed)
    then ret (default "" name +:+ ":" +:+ py_str (_data r))
    else ret (default "" name)
  else if decide (state r = Computed) then ret (py_str (_data r))
  else ret "<?>".

(** [__repr__]. *)
Definition Result_repr (self : addr) : M string :=
  let* name := get_name self in
  if name_truthy name then ret (default "" name) else ret "<?>".

(** ** role *)

(** [__set_role]. The message of the [ValueError] is built from
    [str(self)] before the exception is raised. *)
Definition set_role (self : addr) (role : addr * Z) : M unit :=
  let '(owner, index) := role in
  let* r := load self in
  match _role r with
  | Some (_owner, _index) =>
      if negb (bool_decide (_owner = owner)) then
        let* s := Result_str self in raise ValueError
      else if negb (bool_decide (_index = index)) then
        let* s := Result_str self in raise ValueError
      else ret tt
  | None => set__role self (Some role)
  end.

(** ** Construction *)

(** Allocation of an instance of [cls]; no slot is set yet, and none is
    read before [__init__] has set it. *)
Definition new (cls : pyclass) : M addr :=
  fun w =>
    let self := fresh (dom (results w)) in
    (inr self, put_result self (mkResult cls None PyNone Empty None 0) w).

(** [utils.hashgen()]. *)
Definition call_hashgen : M Z :=
  fun w => (inr (hashgen (hashgen_calls w)),
            mkWorld (results w) (ops w) (host w) (filter_calls w)
                    (S (hashgen_calls w))).

(** [Result.__init__]. *)
Definition Result_init (self : addr) (role : option (addr * Z)) (name : pyval)
  : M unit :=
  set__role self None ;;
  match role with
  | Some role => set_role self role
  | None => ret tt
  end ;;
  set__data self PyNone ;;
  set_state self Empty ;;
  set_name self name ;;
  let* h := call_hashgen in
  set__hash_id self h.

(** [cls(role, name)]. *)
Definition construct (cls : pyclass) (role : option (addr * Z)) (name : pyval)
  : M addr :=
  let* self := new cls in
  Result_init self role name ;;
  ret self.

(** ** C code generators of the base class *)

(** The exception classes that a name denotes where the module uses it
    after [raise]: [AbstractFunctionError] is imported from [utils],
    [ValueError] and [TypeError] are builtins; the module binds no other
    name of an exception, and looking up an unbound name is a
    [NameError]. *)
Definition lookup_exn (name : string) : exn + exn :=
  if decide (name = "AbstractFunctionError") then inr AbstractFunctionError
  else if decide (name = "ValueError") then inr ValueError
  else if decide (name = "TypeError") then inr TypeError
  else inl NameError.

(** [raise Name()]. *)
Definition raise_named {A} (name : string) : exn + A :=
  match lookup_exn name with
  | inr e => inl e
  | inl e => inl e
  end.

(** [c_is_simple]. *)
Definition Result_c_is_simple : bool := false.

Definition Result_c_literal : exn + string :=
  raise_named "AbstractFunctionError".

Definition Result_c_declare (name : string) (sub : gmap string string)
  : exn + string := raise_named "AbstractFunctionError".

Definition Result_c_extract (name : string) (sub : gmap string string)
  : exn + string := raise_named "AbstractFunctionError".

Definition Result_c_cleanup (name : string) (sub : gmap string string)
  : exn + string := raise_named "AbstractFunctionError".

Definition Result_c_sync (name : string) (sub : gmap string string)
  : exn + string := raise_named "AbstractFunctionError".

Definition Result_c_compile_args : exn + list string :=
  raise_named "AbstractFunctionError".

Definition Result_c_headers : exn + list string :=
  raise_named "AbstractFunctionError".

Definition Result_c_libraries : exn + list string :=
  raise_named "AbstractFunctionError".

Definition Result_c_support_code : exn + string :=
  raise_named "AbstractFunctionError".

(** [Result.same_properties]: the body is [raise AbstractFunction()]. *)
Definition Result_same_properties (self other : addr) : exn + bool :=
  raise_named "AbstractFunction".

(** [Result.__copy__]. *)
Definition Result_copy (self : addr) : M addr := raise AbstractFunctionError.

(** ** PythonResult *)

(** A line break followed by the eight blanks of indentation that the
    templates carry. *)
Definition nl8 : string := String (Ascii.ascii_of_nat 10) "        ".

(** The templates, with [%(name)s] filled in from [locals()]. *)
Definition PythonResult_c_declare (name : string) (sub : gmap string string)
  : exn + string :=
  inr (nl8 +:+ "PyObject* " +:+ name +:+ ";" +:+ nl8).

Definition PythonResult_c_extract (name : string) (sub : gmap string string)
  : exn + string :=
  inr (nl8 +:+ "Py_XINCREF(py_" +:+ name +:+ ");" +:+
       nl8 +:+ name +:+ " = py_" +:+ name +:+ ";" +:+ nl8).

Definition PythonResult_c_cleanup (name : string) (sub : gmap string string)
  : exn + string :=
  inr (nl8 +:+ "Py_XDECREF(" +:+ name +:+ ");" +:+ nl8).

Definition PythonResult_c_sync (name : string) (sub : gmap string string)
  : exn + string :=
  inr (nl8 +:+ "Py_XDECREF(py_" +:+ name +:+ ");" +:+
       nl8 +:+ "py_" +:+ name +:+ " = " +:+ name +:+ ";" +:+
       nl8 +:+ "Py_XINCREF(py_" +:+ name +:+ ");" +:+ nl8).

Definition PythonResult_same_properties (self other : addr) : exn + bool :=
  inr false.

(** [copy.copy] on host data: [None] and immutable objects are returned
    as they are, a mutable container is rebuilt at a new address around
    the same items; what the store does not describe cannot be copied. *)
Definition copy_copy (x : pyref) : M pyref :=
  match x with
  | PyNone => ret PyNone
  | PyObj a =>
      fun w =>
        match host w !! a with
        | Some (HAtom _) => (inr (PyObj a), w)
        | Some (HList items) =>
            let a' := fresh (dom (host w)) in
            (inr (PyObj a'), put_host a' (HList items) w)
        | None => (inl (HostError 0), w)
        end
  end.

Definition name_val (n : option string) : pyval :=
  match n with
  | Some s => VStr s
  | None => VNone
  end.

(** The string that a name argument carries, if any. *)
Definition name_of (name : pyval) : option string :=
  match name with
  | VStr s => Some s
  | VNone | VOther _ => None
  end.

(** [PythonResult.__copy__]. *)
Definition PythonResult_copy (self : addr) : M addr :=
  let* name := get_name self in
  let* rval := construct PythonResultClass None (name_val name) in
  let* d := get_data self in
  let* c := copy_copy d in
  set_data rval c ;;
  ret rval.

(** [python_result(data, **kwargs)]. *)
Definition python_result (data : pyref) (role : option (addr * Z)) (name : pyval)
  : M addr :=
  let* rval := construct PythonResultClass role name in
  set_data rval data ;;
  ret rval.

(** ** Method resolution *)

Definition c_literal (cls : pyclass) : exn + string := Result_c_literal.

Definition c_declare (cls : pyclass) (name : string) (sub : gmap string string)
  : exn + string :=
  match cls with
  | PythonResultClass => PythonResult_c_declare name sub
  | ResultClass | FilteringClass _ => Result_c_declare name sub
  end.

Definition c_extract (cls : pyclass) (name : string) (sub : gmap string string)
  : exn + string :=
  match cls with
  | PythonResultClass => PythonResult_c_extract name sub
  | ResultClass | FilteringClass _ => Result_c_extract name sub
  end.

Definition c_cleanup (cls : pyclass) (name : string) (sub : gmap string string)
  : exn + string :=
  match cls with
  | PythonResultClass => PythonResult_c_cleanup name sub
  | ResultClass | FilteringClass _ => Result_c_cleanup name sub
  end.

Definition c_sync (cls : pyclass) (name : string) (sub : gmap string string)
  : exn + string :=
  match cls with
  | PythonResultClass => PythonResult_c_sync name sub
  | ResultClass | FilteringClass _ => Result_c_sync name sub
  end.

Definition c_compile_args (cls : pyclass) : exn + list string := Result_c_compile_args.

Definition c_headers (cls : pyclass) : exn + list string := Result_c_headers.

Definition c_libraries (cls : pyclass) : exn + list string := Result_c_libraries.

Definition c_support_code (cls : pyclass) : exn + string := Result_c_support_code.

Definition same_properties (cls : pyclass) (self other : addr) : exn + bool :=
  match cls with
  | PythonResultClass => PythonResult_same_properties self other
  | ResultClass | FilteringClass _ => Result_same_properties self other
  end.

(** [copy.copy(self)], which calls [self.__copy__()]. *)
Definition clone (self : addr) : M addr :=
  let* r := load self in
  match klass r with
  | PythonResultClass => PythonResult_copy self
  | ResultClass | FilteringClass _ => Result_copy self
  end.

(** ** Host data: mutation and observation *)

(** In-place mutation of a container ([x[:] = items]); [None] and
    immutable objects do not support it. *)
Definition host_set_items (x : pyref) (items : list pyref) : M unit :=
  match x with
  | PyNone => raise TypeError
  | PyObj a =>
      fun w =>
        match host w !! a with
        | Some (HList _) => (inr tt, put_host a (HList items) w)
        | Some (HAtom _) | None => (inl TypeError, w)
        end
  end.

(** The value a reference denotes, followed through containers down to
    a given depth. *)
#[warnings="-register-all"] Inductive hval :=
| HVNone
| HVAtom (z : Z)
| HVList (l : list hval)
| HVCut.

Fixpoint host_value (depth : nat) (h : gmap addr HostObj) (x : pyref) : hval :=
  match depth with
  | O => HVCut
  | S n =>
      match x with
      | PyNone => HVNone
      | PyObj a =>
          match h !! a with
          | Some (HAtom z) => HVAtom z
          | Some (HList items) => HVList (map (host_value n h) items)
          | None => HVCut
          end
      end
  end.

(** ** Scripts of operations on nodes

    What client code does to the nodes of a store; an exception ends the
    operation that raised it and the script goes on. *)
Inductive action :=
| ASetRole (role : addr * Z)
| ASetData (data : pyref)
| ASetName (name : pyval)
| ASetState (s : State)
| AClone
| AConstruct (cls : pyclass) (role : option (addr * Z)) (name : pyval).

Definition perform (target : addr) (a : action) : M unit :=
  match a with
  | ASetRole role => set_role target role
  | ASetData data => set_data target data
  | ASetName name => set_name target name
  | ASetState s => set_state target s
  | AClone => clone target ;; ret tt
  | AConstruct cls role name => construct cls role name ;; ret tt
  end.

Fixpoint run (script : list (addr * action)) (w : World) : World :=
  match script with
  | [] => w
  | (target, a) :: script' => run script' (snd (perform target a w))
  end.

(** ** The emitted C fragments

    The statements that occur in the templates of [PythonResult], their
    concrete syntax, and their meaning on a host that counts
    references. *)
Inductive cstmt :=
| CDecl (x : string)
| CXIncref (x : string)
| CXDecref (x : string)
| CAssign (x y : string).

Definition render_stmt (c : cstmt) : string :=
  match c with
  | CDecl x => "PyObject* " +:+ x +:+ ";"
  | CXIncref x => "Py_XINCREF(" +:+ x +:+ ");"
  | CXDecref x => "Py_XDECREF(" +:+ x +:+ ");"
  | CAssign x y => x +:+ " = " +:+ y +:+ ";"
  end.

Fixpoint render_stmts (l : list cstmt) : string :=
  match l with
  | [] => ""
  | c :: l' => render_stmt c +:+ nl8 +:+ render_stmts l'
  end.

Definition render (l : list cstmt) : string := nl8 +:+ render_stmts l.

(** The host-side variable [py_<name>]. *)
Definition py_ (name : string) : string := "py_" +:+ name.

Definition declare_code (name : string) : list cstmt :=
  [CDecl name].

Definition extract_code (name : string) : list cstmt :=
  [CXIncref (py_ name); CAssign name (py_ name)].

Definition cleanup_code (name : string) : list cstmt :=
  [CXDecref name].

Definition sync_code (name : string) : list cstmt :=
  [CXDecref (py_ name); CAssign (py_ name) name; CXIncref (py_ name)].

(** A [PyObject*] variable: not yet assigned, or a pointer ([None] is
    [NULL]). *)
Inductive cval :=
| CUndef
| CPtr (p : option addr).

(** The variables in scope and the reference count of every live host
    object. *)
Record CState := mkC {
  cenv : gmap string cval;
  refcnt : gmap addr nat
}.

(** [Py_XINCREF(p)]. *)
Definition xincref (p : option addr) (rc : gmap addr nat) : option (gmap addr nat) :=
  match p with
  | None => Some rc
  | Some a =>
      match rc !! a with
      | Some n => Some (<[a := S n]> rc)
      | None => None
      end
  end.

(** [Py_XDECREF(p)]; the object is deallocated when its count drops to
    zero. *)
Definition xdecref (p : option addr) (rc : gmap addr nat) : option (gmap addr nat) :=
  match p with
  | None => Some rc
  | Some a =>
      match rc !! a with
      | Some (S (S n)) => Some (<[a := S n]> rc)
      | Some (S O) => Some (delete a rc)
      | Some O | None => None
      end
  end.

(** One statement; [None] is undefined behaviour (an unassigned or
    undeclared variable, a dead object). *)
Definition exec_stmt (c : cstmt) (s : CState) : option CState :=
  match c with
  | CDecl x => Some (mkC (<[x := CUndef]> (cenv s)) (refcnt s))
  | CXIncref x =>
      match cenv s !! x with
      | Some (CPtr p) =>
          match xincref p (refcnt s) with
          | Some rc => Some (mkC (cenv s) rc)
          | None => None
          end
      | Some CUndef | None => None
      end
  | CXDecref x =>
      match cenv s !! x with
      | Some (CPtr p) =>
          match xdecref p (refcnt s) with
          | Some rc => Some (mkC (cenv s) rc)
          | None => None
          end
      | Some CUndef | None => None
      end
  | CAssign x y =>
      match cenv s !! x, cenv s !! y with
      | Some _, Some (CPtr p) => Some (mkC (<[x := CPtr p]> (cenv s)) (refcnt s))
      | _, _ => None
      end
  end.

Fixpoint exec (l : list cstmt) (s : CState) : option CState :=
  match l with
  | [] => Some s
  | c :: l' =>
      match exec_stmt c s with
      | Some s' => exec l' s'
      | None => None
      end
  end.

(** ** The stores that a copy goes through *)

(** The node that [PythonResult.__copy__] constructs, before its datum
    is assigned, and the store that holds it. *)
Definition blank_copy (nm : option string) (w : World) : ResultObj :=
  mkResult PythonResultClass None PyNone Empty nm (hashgen (hashgen_calls w)).

Definition after_construct (nm : option string) (w : World) : World :=
  mkWorld (<[fresh (dom (results w)) := blank_copy nm w]> (results w))
          (ops w) (host w) (filter_calls w) (S (hashgen_calls w)).

(** ** Stability of hashes

    [stable X w w']: every node of [w] selected by [X] is still there in
    [w'] with the hash it had. *)
Definition stable (X : addr -> Prop) (w w' : World) : Prop :=
  forall a r, X a -> results w !! a = Some r ->
    exists r', results w' !! a = Some r' /\ _hash_id r' = _hash_id r.

Definition keeps {A} (X : addr -> Prop) (m : M A) : Prop :=
  forall w, stable X w (snd (m w)).

(** ** Datum and state

    What the data setter and the constructor keep between the datum and
    the state of a node, and how nodes change from one store to a later
    one. *)

(** Whether the class has a [filter] of its own. *)
Definition has_filter (cls : pyclass) : bool :=
  match cls with
  | FilteringClass _ => true
  | ResultClass | PythonResultClass => false
  end.

(** A node that holds something is [Computed]; a node of a class
    without filter that holds [None] is [Empty]. *)
Definition node_ok (r : ResultObj) : Prop :=
  (_data r <> PyNone -> state r = Computed) /\
  (has_filter (klass r) = false -> _data r = PyNone -> state r = Empty).

(** The two writes of [__set_data]. *)
Definition data_step (r r' : ResultObj) : Prop :=
  r' = with_state Empty (with_data PyNone r) \/
  exists d,
    (has_filter (klass r) = false -> d <> PyNone) /\
    r' = with_state Computed (with_data d r).

(** From [w] to [w']: every node of [w] is still there and has changed
    by [R]; every node that is new satisfies [N]. *)
Definition evolves (R : ResultObj -> ResultObj -> Prop) (N : ResultObj -> Prop)
  (w w' : World) : Prop :=
  (forall a r, results w !! a = Some r ->
     exists r', results w' !! a = Some r' /\ R r r') /\
  (forall a r', results w !! a = None -> results w' !! a = Some r' -> N r').

Definition steps {A} (R : ResultObj -> ResultObj -> Prop) (N : ResultObj -> Prop)
  (m : M A) : Prop :=
  forall w, evolves R N w (snd (m w)).

(** Whether an action assigns to the [state] attribute directly. *)
Definition writes_state (a : action) : bool :=
  match a with
  | ASetState _ => true
  | _ => false
  end.

(** A bound role stays. *)
Definition role_kept (r r' : ResultObj) : Prop :=
  forall role, _role r = Some role -> _role r' = Some role.

(** Consistency of datum and state stays. *)
Definition ok_kept (r r' : ResultObj) : Prop := node_ok r -> node_ok r'.

(** Every node of the store is consistent. *)
Definition store_ok (w : World) : Prop :=
  forall a r, results w !! a = Some r -> node_ok r.

(** Hosts for the C fragments: [py_x] is [NULL]; [py_x] holds the only
    reference to object 1 while the handle [x] has come to hold the only
    reference to object 2. *)
Definition ex_cstate_null : CState :=
  mkC {[ "py_x" := CPtr None ]} ∅.


(** A store without nodes, and a script that constructs a node in it,
    assigns to it, clears it and copies it, without writing [state]. *)
Definition ex_empty : World := mkWorld ∅ ∅ ∅ [] 0.

Definition ex_script_plain : list (addr * action) :=
  [ (1%positive, AConstruct PythonResultClass None (VStr "a"));
    (1%positive, ASetData (PyObj 30%positive));
    (1%positive, ASetName VNone);
    (1%positive, AClone);
    (1%positive, ASetData PyNone) ].



(** ** A sample store

    An owner at 20 whose outputs are the nodes 10 and 11, an owner at 21
    without outputs, nodes 10 to 14 (14 has the contents of 10), and host
    data: a container at 30 holding the container 31, which holds the
    atom 32. *)
Definition ex_filter (d : pyref) : exn + pyref :=
  match d with
  | PyObj 32%positive => inr (PyObj 30%positive)
  | PyObj 31%positive => inl (HostError 1)
  | _ => inr PyNone
  end.

Definition ex_node10 : ResultObj :=
  mkResult ResultClass (Some (20%positive, 0)) PyNone Empty None 1.

Definition ex_node11 : ResultObj :=
  mkResult PythonResultClass (Some (20%positive, 1)) (PyObj 30%positive)
           Computed (Some "y") 2.

Definition ex_node12 : ResultObj :=
  mkResult (FilteringClass ex_filter) None PyNone Allocated None 3.

Definition ex_node13 : ResultObj :=
  mkResult PythonResultClass (Some (21%positive, 0)) (PyObj 32%positive)
           Computed None 4.

Definition ex_node14 : ResultObj :=
  mkResult ResultClass (Some (20%positive, 0)) PyNone Empty None 1.

Definition ex_results : gmap addr ResultObj :=
  {[ 10%positive := ex_node10;
     11%positive := ex_node11;
     12%positive := ex_node12;
     13%positive := ex_node13;
     14%positive := ex_node14 ]}.

Definition ex_op20 : OpObj := mkOp "Add" [10%positive; 11%positive].

Definition ex_op21 : OpObj := mkOp "Mul" [].

Definition ex_ops : gmap addr OpObj :=
  {[ 20%positive := ex_op20; 21%positive := ex_op21 ]}.

Definition ex_host : gmap addr HostObj :=
  {[ 30%positive := HList [PyObj 31%positive];
     31%positive := HList [PyObj 32%positive];
     32%positive := HAtom 5 ]}.

Definition ex_world : World := mkWorld ex_results ex_ops ex_host [] 4.

(** A counter for [utils.hashgen] and a constant [str]. *)
Definition ex_hashgen (n : nat) : Z := Z.of_nat n + 1.

Definition ex_str (x : pyref) : string := "<object>".

(** Operations on node 11 and a construction. *)
Definition ex_script : list (addr * action) :=
  [ (11%positive, ASetData PyNone);
    (11%positive, ASetRole (21%positive, 0));
    (11%positive, ASetName (VStr "z"));
    (11%positive, ASetState Allocated);
    (11%positive, ASetData (PyObj 31%positive));
    (11%positive, AClone);
    (10%positive, AConstruct PythonResultClass (Some (20%positive, 3)) (VOther 32%positive)) ].

(** A host in which [py_x] is bound to an object with one reference. *)
Definition ex_cstate : CState :=
  mkC {[ "py_x" := CPtr (Some 1%positive) ]} {[ 1%positive := 1%nat ]}.

(** * Properties *)

(** ** Running the primitives *)

Lemma load_run w self r :
  results w !! self = Some r -> load self w = (inr r, w).
Proof. intros H. unfold load. by rewrite H. Qed.

Lemma update_run w self r f :
  results w !! self = Some r ->
  update self f w = (inr tt, put_result self (f r) w).
Proof. intros H. unfold update. by rewrite H. Qed.

Lemma bind_run {A B} (m : M A) (k : A -> M B) w x w' :
  m w = (inr x, w') -> bind m k w = k x w'.
Proof. intros H. unfold bind. by rewrite H. Qed.

Lemma bind_raise {A B} (m : M A) (k : A -> M B) w e w' :
  m w = (inl e, w') -> bind m k w = (inl e, w').
Proof. intros H. unfold bind. by rewrite H. Qed.

(** Reading the slots of a node that is there. *)
Ltac run_load H :=
  match type of H with
  | results ?w !! ?self = Some ?r =>
      rewrite (bind_run (load self) _ w r w (load_run w self r H))
  end.

Lemma put_result_lookup w self r :
  results (put_result self r w) !! self = Some r.
Proof. apply lookup_insert_eq. Qed.

Lemma put_result_lookup_ne w self other r :
  self <> other -> results (put_result self r w) !! other = results w !! other.
Proof. intros H. by apply lookup_insert_ne. Qed.

Lemma put_result_twice w self r1 r2 :
  put_result self r2 (put_result self r1 w) = put_result self r2 w.
Proof. unfold put_result; simpl. by rewrite insert_insert_eq. Qed.

Lemma put_result_same w self r :
  results w !! self = Some r -> put_result self r w = w.
Proof.
  intros H. destruct w as [rs os hs fc hc]; unfold put_result; simpl in *.
  by rewrite insert_id.
Qed.

Lemma py_is_true x y : py_is x y = true <-> x = y.
Proof. unfold py_is. apply bool_decide_eq_true. Qed.

Lemma py_is_false x y : py_is x y = false <-> x <> y.
Proof. unfold py_is. apply bool_decide_eq_false. Qed.

(** ** data *)

(** The three paths of [__set_data]. *)
Lemma set_data_same w self r :
  results w !! self = Some r ->
  set_data self (_data r) w = (inr tt, w).
Proof.
  intros H. unfold set_data, bind. rewrite (load_run _ _ _ H).
  by rewrite (proj2 (py_is_true _ _) eq_refl).
Qed.

Lemma set_data_clear w self r :
  results w !! self = Some r ->
  _data r <> PyNone ->
  set_data self PyNone w
  = (inr tt, put_result self (with_state Empty (with_data PyNone r)) w).
Proof.
  intros H Hd. unfold set_data, bind. rewrite (load_run _ _ _ H).
  rewrite (proj2 (py_is_false PyNone (_data r))) by congruence.
  rewrite (proj2 (py_is_true PyNone PyNone) eq_refl).
  unfold set__data, set_state. rewrite (update_run _ _ _ _ H).
  rewrite (update_run _ _ _ _ (put_result_lookup _ _ _)).
  by rewrite put_result_twice.
Qed.

Lemma set_data_store w self r v d w1 :
  results w !! self = Some r ->
  v <> _data r ->
  v <> PyNone ->
  try_except (filter self v) AbstractFunctionError (ret v) w = (inr d, w1) ->
  results w1 = results w ->
  set_data self v w
  = (inr tt, put_result self (with_state Computed (with_data d r)) w1).
Proof.
  intros H Hv Hn Hf Hr. unfold set_data, bind. rewrite (load_run _ _ _ H).
  rewrite (proj2 (py_is_false v (_data r))) by done.
  rewrite (proj2 (py_is_false v PyNone)) by done.
  rewrite Hf. unfold set__data, set_state.
  assert (H1 : results w1 !! self = Some r) by (by rewrite Hr).
  rewrite (update_run _ _ _ _ H1).
  rewrite (update_run _ _ _ _ (put_result_lookup _ _ _)).
  by rewrite put_result_twice.
Qed.

(** C1 (as amended). Assigning [None] to [data] always leaves a data read
    of [None]. The state becomes [Empty] when the slot held something;
    when the slot already holds [None] the assignment returns at the
    identity test and the state keeps the value it had. *)
Theorem set_data_None_spec w self r :
  results w !! self = Some r ->
  exists w' r',
    set_data self PyNone w = (inr tt, w') /\
    results w' !! self = Some r' /\
    get_data self w' = (inr PyNone, w') /\
    _data r' = PyNone /\
    state r' = (if decide (_data r = PyNone) then state r else Empty).
Proof.
  intros H. destruct (decide (_data r = PyNone)) as [Hd|Hd].
  - exists w, r. pose proof (set_data_same _ _ _ H) as Hs. rewrite Hd in Hs.
    repeat split; try done.
    unfold get_data, bind. rewrite (load_run _ _ _ H). by rewrite Hd.
  - eexists _, _. split; [by apply set_data_clear|].
    split; [apply put_result_lookup|].
    repeat split.
    unfold get_data, bind.
    by rewrite (load_run _ _ _ (put_result_lookup _ _ _)).
Qed.

(** Without an override, [self.filter] raises the abstract-function
    error and records nothing. *)
Lemma filter_absent w self r v :
  results w !! self = Some r ->
  klass r = ResultClass \/ klass r = PythonResultClass ->
  try_except (filter self v) AbstractFunctionError (ret v) w = (inr v, w).
Proof.
  intros H Hk. unfold try_except, filter, bind. rewrite (load_run _ _ _ H).
  by destruct Hk as [-> | ->].
Qed.

Lemma filter_present w self r v flt d :
  results w !! self = Some r ->
  klass r = FilteringClass flt ->
  flt v = inr d ->
  try_except (filter self v) AbstractFunctionError (ret v) w
  = (inr d, record_call self v w).
Proof.
  intros H Hk Hf. unfold try_except, filter, bind. rewrite (load_run _ _ _ H).
  by rewrite Hk, Hf.
Qed.

(** C4. On a node whose class has no [filter] of its own, assigning a
    value that is neither [None] nor the object held stores that very
    value and sets the state to [Computed]; where the class has a
    [filter], what the filter returns is stored and the state is
    [Computed]. *)
Theorem set_data_value_spec w self r v :
  results w !! self = Some r ->
  v <> PyNone ->
  v <> _data r ->
  (klass r = ResultClass \/ klass r = PythonResultClass ->
   exists w' r',
     set_data self v w = (inr tt, w') /\
     results w' !! self = Some r' /\
     _data r' = v /\ state r' = Computed /\
     get_data self w' = (inr v, w')) /\
  (forall flt d,
     klass r = FilteringClass flt ->
     flt v = inr d ->
     exists w' r',
       set_data self v w = (inr tt, w') /\
       results w' !! self = Some r' /\
       _data r' = d /\ state r' = Computed /\
       get_data self w' = (inr d, w')).
Proof.
  intros H Hn Hv. split.
  - intros Hk. eexists _, _.
    split; [apply (set_data_store _ _ _ _ _ _ H Hv Hn (filter_absent _ _ _ _ H Hk) eq_refl)|].
    split; [apply put_result_lookup|]. repeat split.
    unfold get_data, bind.
    by rewrite (load_run _ _ _ (put_result_lookup _ _ _)).
  - intros flt d Hk Hf. eexists _, _.
    split; [apply (set_data_store _ _ _ _ _ _ H Hv Hn (filter_present _ _ _ _ _ _ H Hk Hf) eq_refl)|].
    split; [apply put_result_lookup|]. repeat split.
    unfold get_data, bind.
    by rewrite (load_run _ _ _ (put_result_lookup _ _ _)).
Qed.

(** C5. Assigning to [data] the object that the slot holds changes
    nothing: the store after the assignment is the store before it, so
    the datum and the state are as they were and no call of [filter] was
    recorded. *)
Theorem set_data_identical_noop w self r :
  results w !! self = Some r ->
  exists w',
    set_data self (_data r) w = (inr tt, w') /\
    results w' !! self = Some r /\
    filter_calls w' = filter_calls w /\
    w' = w.
Proof.
  intros H. exists w. by rewrite (set_data_same _ _ _ H).
Qed.

(** ** Identity *)

(** C7. Two distinct nodes are unequal, whatever they hold, also with
    the same datum and the same role; [==] holds exactly between a node
    and itself, and [!=] is its negation. *)
Theorem Result_eq_is_identity w a b ra rb :
  results w !! a = Some ra ->
  results w !! b = Some rb ->
  (a <> b -> _data ra = _data rb -> _role ra = _role rb ->
   Result_eq a b = false /\ Result_ne a b = true) /\
  (Result_eq a b = true <-> a = b) /\
  (Result_ne a b = true <-> a <> b).
Proof.
  intros _ _. unfold Result_eq, Result_ne. split; [|split].
  - intros Hab _ _. by rewrite (bool_decide_eq_false_2 _ Hab).
  - apply bool_decide_eq_true.
  - rewrite negb_true_iff. apply bool_decide_eq_false.
Qed.

(** ** Hooks of the base class *)

(** Every code generator of the base class raises
    [AbstractFunctionError], for [Result] itself and for a subclass that
    overrides [filter] only. *)
Lemma codegen_hooks_abstract cls name sub :
  cls = ResultClass \/ (exists flt, cls = FilteringClass flt) ->
  c_literal cls = inl AbstractFunctionError /\
  c_declare cls name sub = inl AbstractFunctionError /\
  c_extract cls name sub = inl AbstractFunctionError /\
  c_cleanup cls name sub = inl AbstractFunctionError /\
  c_sync cls name sub = inl AbstractFunctionError /\
  c_compile_args cls = inl AbstractFunctionError /\
  c_headers cls = inl AbstractFunctionError /\
  c_libraries cls = inl AbstractFunctionError /\
  c_support_code cls = inl AbstractFunctionError.
Proof. intros [-> | [flt ->]]; repeat split. Qed.

(** C3 (where the code departs from it). [same_properties] on the base
    class does not raise [AbstractFunctionError]: it raises [NameError],
    on every pair of nodes. *)
Theorem same_properties_base_NameError self other :
  same_properties ResultClass self other = inl NameError /\
  same_properties ResultClass self other <> inl AbstractFunctionError.
Proof. split; [reflexivity | discriminate]. Qed.

(** ** name *)

Lemma list_index_lookup l x i :
  list_index l x = Some i -> l !! i = Some x.
Proof.
  revert i. induction l as [|y l IH]; intros i; simpl; [done|].
  unfold Result_eq. case_bool_decide as Hy.
  - intros [= <-]. by subst.
  - destruct (list_index l x) as [j|] eqn:Hj; simpl; [|done].
    intros [= <-]. simpl. by apply IH.
Qed.

Lemma list_index_first l x i j :
  list_index l x = Some i -> (j < i)%nat -> l !! j <> Some x.
Proof.
  revert i j. induction l as [|y l IH]; intros i j; simpl; [done|].
  unfold Result_eq. case_bool_decide as Hy.
  - intros [= <-]. lia.
  - destruct (list_index l x) as [k|] eqn:Hk; simpl; [|done].
    intros [= <-] Hlt. destruct j as [|j]; simpl.
    + congruence.
    + apply (IH k); [done | lia].
Qed.

Lemma list_index_None l x :
  list_index l x = None <-> x ∉ l.
Proof.
  induction l as [|y l IH]; simpl.
  - split; [intros _; apply not_elem_of_nil | done].
  - unfold Result_eq. case_bool_decide as Hy.
    + subst. split; [done | intros []; apply list_elem_of_here].
    + rewrite not_elem_of_cons. destruct (list_index l x); simpl.
      * split; [done | intros [_ Hx]]. by apply IH in Hx.
      * split; [intros _; split; [congruence | by apply IH] | done].
Qed.

(** [__get_name] reads and never writes; on a node bound to an owner it
    returns, or raises the [ValueError] of [list.index]. *)
Lemma get_name_named w self r s :
  results w !! self = Some r ->
  _name r = Some s -> s <> "" ->
  get_name self w = (inr (Some s), w).
Proof.
  intros H Hn Hs. unfold get_name, bind. rewrite (load_run _ _ _ H).
  rewrite Hn. simpl. by rewrite (bool_decide_eq_false_2 _ Hs).
Qed.

Lemma get_name_derived w self r owner index op :
  results w !! self = Some r ->
  name_truthy (_name r) = false ->
  _role r = Some (owner, index) ->
  ops w !! owner = Some op ->
  get_name self w
  = match list_index (outputs op) self with
    | Some i => (inr (Some (op_class op +:+ "." +:+ pretty i)), w)
    | None => (inl ValueError, w)
    end.
Proof.
  intros H Hn Hr Ho. unfold get_name.
  run_load H. rewrite Hn, Hr.
  unfold get_owner.
  rewrite (bind_run _ _ w (Some owner) w)
    by (by (run_load H; rewrite Hr)).
  unfold bind, load_op. rewrite Ho. unfold index_of.
  by destruct (list_index (outputs op) self).
Qed.

Lemma get_name_unbound w self r :
  results w !! self = Some r ->
  name_truthy (_name r) = false ->
  _role r = None ->
  get_name self w = (inr None, w).
Proof.
  intros H Hn Hr. unfold get_name, bind. rewrite (load_run _ _ _ H).
  by rewrite Hn, Hr.
Qed.

(** On a node bound to an owner that does not list it, the name cannot
    be derived: [list.index] raises [ValueError]. *)
Lemma get_name_unlisted w self r owner index op :
  results w !! self = Some r ->
  name_truthy (_name r) = false ->
  _role r = Some (owner, index) ->
  ops w !! owner = Some op ->
  self ∉ outputs op ->
  get_name self w = (inl ValueError, w).
Proof.
  intros H Hn Hr Ho Hout. rewrite (get_name_derived _ _ _ _ _ _ H Hn Hr Ho).
  by rewrite (proj2 (list_index_None _ _) Hout).
Qed.

(** C6 (as amended). Reading [name] returns the name that was set when
    it is a non-empty string; otherwise, on a node bound to an owner that
    lists it among its outputs, the text of the owner's class, a dot and
    the position at which the node first occurs in those outputs;
    otherwise, on an unbound node, [None]. *)
Theorem get_name_spec w self r :
  results w !! self = Some r ->
  (forall s, _name r = Some s -> s <> "" ->
     get_name self w = (inr (Some s), w)) /\
  (forall owner index op i,
     name_truthy (_name r) = false ->
     _role r = Some (owner, index) ->
     ops w !! owner = Some op ->
     list_index (outputs op) self = Some i ->
     get_name self w = (inr (Some (op_class op +:+ "." +:+ pretty i)), w) /\
     outputs op !! i = Some self /\
     (forall j, (j < i)%nat -> outputs op !! j <> Some self)) /\
  (name_truthy (_name r) = false -> _role r = None ->
     get_name self w = (inr None, w)).
Proof.
  intros H. split; [|split].
  - intros s Hn Hs. by apply (get_name_named _ _ r).
  - intros owner index op i Hn Hr Ho Hi. split; [|split].
    + rewrite (get_name_derived _ _ _ _ _ _ H Hn Hr Ho). by rewrite Hi.
    + by apply list_index_lookup.
    + intros j Hj. by apply (list_index_first _ _ i).
  - intros Hn Hr. by apply (get_name_unbound _ _ r).
Qed.

(** ** role *)

(** [__str__] goes wrong only where [__get_name] does, and writes
    nothing. *)
Lemma Result_str_returns w self r n :
  results w !! self = Some r ->
  get_name self w = (inr n, w) ->
  exists s, Result_str self w = (inr s, w).
Proof.
  intros H Hn. unfold Result_str.
  rewrite (bind_run _ _ _ _ _ Hn). run_load H.
  destruct (name_truthy n), (decide (state r = Computed)); by eexists.
Qed.

Lemma Result_str_raises w self e w' :
  get_name self w = (inl e, w') ->
  Result_str self w = (inl e, w').
Proof. intros Hn. unfold Result_str. by rewrite (bind_raise _ _ _ _ _ Hn). Qed.

Lemma Result_str_bound w self r owner index op :
  results w !! self = Some r ->
  _role r = Some (owner, index) ->
  ops w !! owner = Some op ->
  (exists s, Result_str self w = (inr s, w)) \/
  Result_str self w = (inl ValueError, w).
Proof.
  intros H Hr Ho. destruct (name_truthy (_name r)) eqn:Hn.
  - left. destruct (_name r) as [s|] eqn:Hs; [|done].
    apply (Result_str_returns _ _ r (Some s)); [done|].
    apply (get_name_named _ _ r); [done..|].
    simpl in Hn. intros ->. done.
  - pose proof (get_name_derived _ _ _ _ _ _ H Hn Hr Ho) as Hg.
    destruct (list_index (outputs op) self) as [i|].
    + left. by apply (Result_str_returns _ _ r _ H Hg).
    + right. by apply Result_str_raises.
Qed.

(** Raising [ValueError] after the message has been built. *)
Lemma raise_after_str w self r owner index op :
  results w !! self = Some r ->
  _role r = Some (owner, index) ->
  ops w !! owner = Some op ->
  (let* s := Result_str self in raise (A := unit) ValueError) w
  = (inl ValueError, w).
Proof.
  intros H Hr Ho.
  destruct (Result_str_bound _ _ _ _ _ _ H Hr Ho) as [[s Hs] | Hs].
  - by rewrite (bind_run _ _ _ _ _ Hs).
  - by rewrite (bind_raise _ _ _ _ _ Hs).
Qed.

Lemma set_role_unbound w self r role :
  results w !! self = Some r ->
  _role r = None ->
  set_role self role w = (inr tt, put_result self (with_role (Some role) r) w).
Proof.
  intros H Hr. destruct role as [owner index]. unfold set_role.
  run_load H. rewrite Hr.
  unfold set__role. by rewrite (update_run _ _ _ _ H).
Qed.

(** Where the owner is an Op of the store, a conflicting binding raises
    [ValueError]: the one of [__set_role], or the one of [list.index]
    met while the message is built. *)
Lemma set_role_bound_to_op w self r owner index op :
  results w !! self = Some r ->
  _role r = Some (owner, index) ->
  ops w !! owner = Some op ->
  set_role self (owner, index) w = (inr tt, w) /\
  (forall owner' index',
     owner' <> owner ->
     set_role self (owner', index') w = (inl ValueError, w)) /\
  (forall index',
     index' <> index ->
     set_role self (owner, index') w = (inl ValueError, w)) /\
  get_role self w = (inr (Some (owner, index)), w).
Proof.
  intros H Hr Ho. repeat split.
  - unfold set_role.
    run_load H. rewrite Hr.
    by rewrite !bool_decide_eq_true_2.
  - intros owner' index' Hne. unfold set_role.
    run_load H. rewrite Hr.
    rewrite (bool_decide_eq_false_2 (owner = owner')) by congruence.
    simpl. by apply (raise_after_str _ _ r owner index op).
  - intros index' Hne. unfold set_role.
    run_load H. rewrite Hr.
    rewrite (bool_decide_eq_true_2 (owner = owner)) by done.
    rewrite (bool_decide_eq_false_2 (index = index')) by congruence.
    simpl. by apply (raise_after_str _ _ r owner index op).
  - unfold get_role. run_load H. by rewrite Hr.
Qed.

(** ** The emitted C fragments *)

Lemma append_cons x (a b : string) : String x a +:+ b = String x (a +:+ b).
Proof. reflexivity. Qed.

Lemma append_assoc (a b c : string) : (a +:+ b) +:+ c = a +:+ (b +:+ c).
Proof.
  induction a as [|x a IH]; [done|]. by rewrite !append_cons, IH.
Qed.

Lemma append_empty_r (a : string) : a +:+ "" = a.
Proof.
  induction a as [|x a IH]; [done|]. by rewrite append_cons, IH.
Qed.

Lemma length_append (a b : string) :
  String.length (a +:+ b) = (String.length a + String.length b)%nat.
Proof.
  induction a as [|x a IH]; [done|]. rewrite append_cons. simpl. by rewrite IH.
Qed.

Lemma py__neq name : py_ name <> name.
Proof.
  intros H. apply (f_equal String.length) in H.
  unfold py_ in H. rewrite length_append in H. simpl in H. lia.
Qed.

(** The text that [PythonResult] emits is the concrete syntax of the
    statement lists above. *)
Lemma PythonResult_emits name sub :
  c_declare PythonResultClass name sub = inr (render (declare_code name)) /\
  c_extract PythonResultClass name sub = inr (render (extract_code name)) /\
  c_cleanup PythonResultClass name sub = inr (render (cleanup_code name)) /\
  c_sync PythonResultClass name sub = inr (render (sync_code name)).
Proof.
  unfold c_declare, c_extract, c_cleanup, c_sync,
    PythonResult_c_declare, PythonResult_c_extract, PythonResult_c_cleanup,
    PythonResult_c_sync, render, declare_code, extract_code, cleanup_code,
    sync_code, render_stmts, render_stmt, py_.
  repeat split; f_equal; f_equal;
    rewrite ?append_assoc, ?append_empty_r; reflexivity.
Qed.

Lemma exec_app l1 l2 s :
  exec (l1 ++ l2) s
  = match exec l1 s with
    | Some s' => exec l2 s'
    | None => None
    end.
Proof.
  revert s. induction l1 as [|c l1 IH]; intros s; simpl; [done|].
  destruct (exec_stmt c s); [apply IH | done].
Qed.

Lemma exec_declare name s :
  exec (declare_code name) s
  = Some (mkC (<[name := CUndef]> (cenv s)) (refcnt s)).
Proof. reflexivity. Qed.

(** [extract] on a declared handle: one more reference to the object
    that [py_<name>] is bound to, and the handle points to it. *)
Lemma exec_extract name s x v c :
  cenv s !! name = Some x ->
  cenv s !! py_ name = Some (CPtr (Some v)) ->
  refcnt s !! v = Some c ->
  exec (extract_code name) s
  = Some (mkC (<[name := CPtr (Some v)]> (cenv s)) (<[v := S c]> (refcnt s))).
Proof.
  intros Hx Hp Hc. unfold extract_code, exec, exec_stmt, xincref.
  rewrite Hp, Hc. simpl. by rewrite Hx, Hp.
Qed.

(** [extract] where [py_<name>] is [NULL]: nothing is counted. *)
Lemma exec_extract_NULL name s x :
  cenv s !! name = Some x ->
  cenv s !! py_ name = Some (CPtr None) ->
  exec (extract_code name) s
  = Some (mkC (<[name := CPtr None]> (cenv s)) (refcnt s)).
Proof.
  intros Hx Hp. unfold extract_code, exec, exec_stmt, xincref.
  rewrite Hp. simpl. by rewrite Hx, Hp.
Qed.

(** [cleanup] gives up one reference to the object the handle points
    to and assigns no variable. *)
Lemma exec_cleanup name s v c :
  cenv s !! name = Some (CPtr (Some v)) ->
  refcnt s !! v = Some (S (S c)) ->
  exec (cleanup_code name) s
  = Some (mkC (cenv s) (<[v := S c]> (refcnt s))).
Proof.
  intros Hx Hc. unfold cleanup_code, exec, exec_stmt, xdecref.
  by rewrite Hx, Hc.
Qed.

(** [sync] where the handle still points to the object of the binding:
    the count goes down and up again. *)
Lemma exec_sync_same name s v c :
  cenv s !! name = Some (CPtr (Some v)) ->
  cenv s !! py_ name = Some (CPtr (Some v)) ->
  refcnt s !! v = Some (S (S c)) ->
  exec (sync_code name) s
  = Some (mkC (<[py_ name := CPtr (Some v)]> (cenv s)) (refcnt s)).
Proof.
  intros Hx Hp Hc. unfold sync_code, exec, exec_stmt, xdecref, xincref.
  rewrite Hp, Hc. simpl. rewrite Hp, Hx. simpl.
  rewrite lookup_insert_eq. simpl. rewrite lookup_insert_eq.
  rewrite insert_insert_eq. by rewrite (insert_id _ _ _ Hc).
Qed.

(** [sync] after the native code has pointed the handle to another
    object: the old value of the binding loses a reference, the new one
    gains one. *)
Lemma exec_sync_other name s v v' c c' :
  v <> v' ->
  cenv s !! name = Some (CPtr (Some v')) ->
  cenv s !! py_ name = Some (CPtr (Some v)) ->
  refcnt s !! v = Some (S (S c)) ->
  refcnt s !! v' = Some c' ->
  exec (sync_code name) s
  = Some (mkC (<[py_ name := CPtr (Some v')]> (cenv s))
              (<[v' := S c']> (<[v := S c]> (refcnt s)))).
Proof.
  intros Hne Hx Hp Hc Hc'. unfold sync_code, exec, exec_stmt, xdecref, xincref.
  rewrite Hp, Hc. simpl. rewrite Hp, Hx. simpl.
  rewrite lookup_insert_eq. simpl.
  by rewrite (lookup_insert_ne _ v v') , Hc'.
Qed.

(** C9 (as amended). The text emitted for a [PythonResult] is the
    concrete syntax of [declare_code], [extract_code], [cleanup_code] and
    [sync_code].  With [py_<name>] bound to a live object [v]:
    [declare] then [extract] adds exactly one reference to [v] and points
    the handle to it; [cleanup] gives that one reference back and assigns
    no variable; [sync] leaves [py_<name>] bound to [v] and the count of
    [v] one above what it was at the start, which the [cleanup] that
    follows brings back to the start. *)
Theorem PythonResult_refcounts name sub s v c :
  cenv s !! py_ name = Some (CPtr (Some v)) ->
  refcnt s !! v = Some (S c) ->
  (c_declare PythonResultClass name sub = inr (render (declare_code name)) /\
   c_extract PythonResultClass name sub = inr (render (extract_code name)) /\
   c_cleanup PythonResultClass name sub = inr (render (cleanup_code name)) /\
   c_sync PythonResultClass name sub = inr (render (sync_code name))) /\
  exists s1,
    exec (declare_code name ++ extract_code name) s = Some s1 /\
    cenv s1 !! name = Some (CPtr (Some v)) /\
    cenv s1 !! py_ name = Some (CPtr (Some v)) /\
    refcnt s1 = <[v := S (S c)]> (refcnt s) /\
    (exists s2,
       exec (cleanup_code name) s1 = Some s2 /\
       cenv s2 = cenv s1 /\
       refcnt s2 = refcnt s) /\
    (exists s3,
       exec (sync_code name) s1 = Some s3 /\
       cenv s3 !! py_ name = Some (CPtr (Some v)) /\
       refcnt s3 = <[v := S (S c)]> (refcnt s) /\
       exists s4,
         exec (cleanup_code name) s3 = Some s4 /\
         cenv s4 !! py_ name = Some (CPtr (Some v)) /\
         refcnt s4 = refcnt s).
Proof.
  intros Hp Hc. split; [apply PythonResult_emits|].
  pose proof (py__neq name) as Hne.
  set (s0 := mkC (<[name := CUndef]> (cenv s)) (refcnt s)).
  assert (Hx0 : cenv s0 !! name = Some CUndef) by apply lookup_insert_eq.
  assert (Hp0 : cenv s0 !! py_ name = Some (CPtr (Some v))).
  { unfold s0; simpl. by rewrite lookup_insert_ne. }
  set (s1 := mkC (<[name := CPtr (Some v)]> (cenv s0)) (<[v := S (S c)]> (refcnt s))).
  assert (Hx1 : cenv s1 !! name = Some (CPtr (Some v))) by apply lookup_insert_eq.
  assert (Hp1 : cenv s1 !! py_ name = Some (CPtr (Some v))).
  { unfold s1; simpl. by rewrite lookup_insert_ne. }
  assert (Hc1 : refcnt s1 !! v = Some (S (S c))) by apply lookup_insert_eq.
  assert (Hback : <[v := S c]> (refcnt s1) = refcnt s).
  { unfold s1; simpl. rewrite insert_insert_eq. by apply insert_id. }
  exists s1. split.
  { rewrite exec_app, exec_declare. fold s0.
    by rewrite (exec_extract name s0 CUndef v (S c) Hx0 Hp0 Hc). }
  do 3 (split; [done|]). split.
  - eexists. split; [apply (exec_cleanup name s1 v c Hx1 Hc1)|]. by simpl.
  - eexists. split; [apply (exec_sync_same name s1 v c Hx1 Hp1 Hc1)|].
    split; [apply lookup_insert_eq|]. split; [done|].
    eexists. split.
    + apply (exec_cleanup name _ v c); simpl; [by rewrite lookup_insert_ne | done].
    + split; [apply lookup_insert_eq | by simpl].
Qed.

(** ** Construction *)

Lemma fresh_result_None w : results w !! fresh (dom (results w)) = None.
Proof. apply not_elem_of_dom, is_fresh. Qed.

(** [__init__] up to the assignment of the name. *)
Lemma Result_init_prefix w self r role name :
  results w !! self = Some r ->
  _role r = None ->
  Result_init self role name w
  = (set_name self name ;;
     let* h := call_hashgen in
     set__hash_id self h)
      (put_result self
         (mkResult (klass r) role PyNone Empty (_name r) (_hash_id r)) w).
Proof.
  intros H Hr. unfold Result_init.
  unfold set__role at 1. rewrite (bind_run _ _ _ _ _ (update_run _ _ _ _ H)).
  set (r1 := with_role None r).
  assert (Hrole : match role with Some role => set_role self role | None => ret tt end
                    (put_result self r1 w)
                  = (inr tt, put_result self (with_role role r) w)).
  { destruct role as [role|].
    - rewrite (set_role_unbound _ self r1 role (put_result_lookup _ _ _) eq_refl).
      by rewrite put_result_twice.
    - reflexivity. }
  rewrite (bind_run _ _ _ _ _ Hrole).
  unfold set__data, set_state.
  rewrite (bind_run _ _ _ _ _ (update_run _ _ _ _ (put_result_lookup _ _ _))).
  rewrite put_result_twice.
  rewrite (bind_run _ _ _ _ _ (update_run _ _ _ _ (put_result_lookup _ _ _))).
  by rewrite put_result_twice.
Qed.

Lemma Result_init_run w self r role name :
  results w !! self = Some r ->
  _role r = None ->
  (forall other, name <> VOther other) ->
  Result_init self role name w
  = (inr tt,
     mkWorld (<[self := mkResult (klass r) role PyNone Empty (name_of name)
                                 (hashgen (hashgen_calls w))]> (results w))
             (ops w) (host w) (filter_calls w) (S (hashgen_calls w))).
Proof.
  intros H Hr Hn. rewrite (Result_init_prefix _ _ _ _ _ H Hr).
  destruct name as [|s|other]; [| |by destruct (Hn other)];
    unfold set_name, set__name, set__hash_id, call_hashgen;
    rewrite (bind_run _ _ _ _ _ (update_run _ _ _ _ (put_result_lookup _ _ _)));
    rewrite put_result_twice; unfold bind, update; simpl;
    rewrite lookup_insert_eq; unfold put_result; simpl;
    by rewrite insert_insert_eq.
Qed.

(** A name that is neither [None] nor a string makes [__init__] raise
    [TypeError]. *)
Lemma Result_init_TypeError w self r role other :
  results w !! self = Some r ->
  _role r = None ->
  fst (Result_init self role (VOther other) w) = inl TypeError.
Proof.
  intros H Hr. by rewrite (Result_init_prefix _ _ _ _ _ H Hr).
Qed.

Lemma construct_TypeError w cls role other :
  fst (construct cls role (VOther other) w) = inl TypeError.
Proof.
  unfold construct, bind at 1, new.
  set (self := fresh (dom (results w))). set (w1 := put_result self _ w).
  pose proof (Result_init_TypeError w1 self _ role other
                (put_result_lookup _ _ _) eq_refl) as Hi.
  unfold bind. by destruct (Result_init self role (VOther other) w1) as [[e|x] w2];
    simpl in *; simplify_eq.
Qed.

Lemma construct_run w cls role name :
  (forall other, name <> VOther other) ->
  let self := fresh (dom (results w)) in
  construct cls role name w
  = (inr self,
     mkWorld (<[self := mkResult cls role PyNone Empty (name_of name)
                                 (hashgen (hashgen_calls w))]> (results w))
             (ops w) (host w) (filter_calls w) (S (hashgen_calls w))).
Proof.
  intros Hn self. unfold construct, bind at 1, new. fold self.
  erewrite bind_run;
    [| by apply (Result_init_run _ self _ role name (put_result_lookup _ _ _))].
  unfold ret, put_result. simpl. by rewrite insert_insert_eq.
Qed.

(** ** The hash *)

Lemma stable_refl X w : stable X w w.
Proof. intros a r _ H. by exists r. Qed.

Lemma stable_trans X w1 w2 w3 :
  stable X w1 w2 -> stable X w2 w3 -> stable X w1 w3.
Proof.
  intros H12 H23 a r Ha H. destruct (H12 a r Ha H) as (r2 & H2 & E2).
  destruct (H23 a r2 Ha H2) as (r3 & H3 & E3). exists r3. split; congruence.
Qed.

Lemma stable_weaken (X Y : addr -> Prop) w w' :
  (forall a, Y a -> X a) -> stable X w w' -> stable Y w w'.
Proof. intros HXY H a r Ha. apply H. by apply HXY. Qed.

Lemma stable_same_results X w w' : results w' = results w -> stable X w w'.
Proof. intros E a r _ H. exists r. by rewrite E. Qed.

Lemma keeps_ret {A} X (x : A) : keeps X (ret x).
Proof. intros w. apply stable_refl. Qed.

Lemma keeps_raise {A} X e : keeps X (raise (A := A) e).
Proof. intros w. apply stable_refl. Qed.

Lemma keeps_bind {A B} X (m : M A) (k : A -> M B) :
  keeps X m -> (forall x, keeps X (k x)) -> keeps X (bind m k).
Proof.
  intros Hm Hk w. unfold bind. specialize (Hm w).
  destruct (m w) as [[e|x] w1]; simpl in *; [done|].
  apply (stable_trans _ _ w1); [done | apply Hk].
Qed.

Lemma keeps_try_except {A} X (m h : M A) e :
  keeps X m -> keeps X h -> keeps X (try_except m e h).
Proof.
  intros Hm Hh w. unfold try_except. specialize (Hm w).
  destruct (m w) as [[e'|x] w1]; simpl in *; [|done].
  destruct (decide (e' = e)); simpl; [|done].
  apply (stable_trans _ _ w1); [done | apply Hh].
Qed.

Lemma keeps_load X self : keeps X (load self).
Proof. intros w. unfold load. destruct (results w !! self); apply stable_refl. Qed.

Lemma keeps_load_op X owner : keeps X (load_op owner).
Proof. intros w. unfold load_op. destruct (ops w !! owner); apply stable_refl. Qed.

(** Writing a slot other than [_hash_id] keeps every hash. *)
Lemma keeps_update X self f :
  (forall r, _hash_id (f r) = _hash_id r) -> keeps X (update self f).
Proof.
  intros Hf w. unfold update. destruct (results w !! self) as [r0|] eqn:H0;
    simpl; [|apply stable_refl].
  intros a r _ Ha. destruct (decide (self = a)) as [->|Hne].
  - exists (f r0). rewrite put_result_lookup. split; [done|].
    rewrite Hf. congruence.
  - exists r. by rewrite put_result_lookup_ne.
Qed.

(** Writing any slot of [self] keeps the hash of every other node. *)
Lemma keeps_update_off self f : keeps (fun a => a <> self) (update self f).
Proof.
  intros w. unfold update. destruct (results w !! self) as [r0|] eqn:H0;
    simpl; [|apply stable_refl].
  intros a r Hne Ha. exists r. by rewrite put_result_lookup_ne.
Qed.

Create HintDb keeps discriminated.

#[local] Hint Resolve keeps_ret keeps_raise keeps_load keeps_load_op : keeps.

(** Walks down a computation: binds, handlers, slot writes and case
    distinctions, with the lemmas of the database at the leaves. *)
Ltac keeps_walk :=
  repeat first
    [ solve [auto with keeps]
    | apply keeps_update; solve [done]
    | apply keeps_try_except
    | apply keeps_bind; [|intros ?]
    | match goal with
      | |- keeps _ (match ?x with _ => _ end) => destruct x
      | |- keeps _ (if ?b then _ else _) => destruct b
      end ].

Lemma keeps_filter X self data : keeps X (filter self data).
Proof.
  unfold filter, Result_filter. keeps_walk. intros w. by apply stable_same_results.
Qed.

#[local] Hint Resolve keeps_filter : keeps.

Lemma keeps_set_data X self data : keeps X (set_data self data).
Proof. unfold set_data. keeps_walk. Qed.

Lemma keeps_get_data X self : keeps X (get_data self).
Proof. unfold get_data. keeps_walk. Qed.

Lemma keeps_get_name X self : keeps X (get_name self).
Proof. unfold get_name, get_owner, index_of. keeps_walk. Qed.

#[local] Hint Resolve keeps_set_data keeps_get_data keeps_get_name : keeps.

Lemma keeps_Result_str X self : keeps X (Result_str self).
Proof. unfold Result_str. keeps_walk. Qed.

#[local] Hint Resolve keeps_Result_str : keeps.

Lemma keeps_set_role X self role : keeps X (set_role self role).
Proof. destruct role as [owner index]. unfold set_role. keeps_walk. Qed.

Lemma keeps_set_name X self name : keeps X (set_name self name).
Proof. unfold set_name. keeps_walk. Qed.

Lemma keeps_call_hashgen X : keeps X call_hashgen.
Proof. intros w. by apply stable_same_results. Qed.

#[local] Hint Resolve keeps_set_role keeps_set_name keeps_call_hashgen : keeps.

(** [__init__] writes the hash of the node it initialises, and of no
    other. *)
Lemma keeps_Result_init self role name :
  keeps (fun a => a <> self) (Result_init self role name).
Proof. unfold Result_init. keeps_walk. apply keeps_update_off. Qed.

Lemma keeps_construct X cls role name : keeps X (construct cls role name).
Proof.
  intros w. unfold construct, bind at 1, new.
  set (self := fresh (dom (results w))).
  set (w1 := put_result self _ w).
  assert (Hinit : stable (fun a => a <> self) w1
                    (snd ((Result_init self role name ;; ret self) w1))).
  { apply keeps_bind; [apply keeps_Result_init | intros _; apply keeps_ret]. }
  intros a r _ Ha.
  assert (Hne : a <> self).
  { intros ->. unfold self in Ha. by rewrite fresh_result_None in Ha. }
  apply (Hinit a r Hne). unfold w1. by rewrite put_result_lookup_ne.
Qed.

Lemma keeps_copy_copy X x : keeps X (copy_copy x).
Proof.
  destruct x as [|a]; [apply keeps_ret|]. intros w. unfold copy_copy.
  destruct (host w !! a) as [[z|items]|]; by apply stable_same_results.
Qed.

#[local] Hint Resolve keeps_construct keeps_copy_copy : keeps.

Lemma keeps_clone X self : keeps X (clone self).
Proof. unfold clone, Result_copy, PythonResult_copy. keeps_walk. Qed.

#[local] Hint Resolve keeps_clone : keeps.

Lemma keeps_perform X target a : keeps X (perform target a).
Proof. destruct a; simpl; unfold set_state; keeps_walk. Qed.

Lemma stable_run X script w : stable X w (run script w).
Proof.
  revert w. induction script as [|[target a] script IH]; intros w; simpl.
  - apply stable_refl.
  - apply (stable_trans _ _ (snd (perform target a w)));
      [apply keeps_perform | apply IH].
Qed.

(** C10. The hash of a node is what [utils.hashgen] returned when the
    node was constructed, whatever class, role and name it was
    constructed with; and after any script of role bindings, data
    assignments and clearings, renamings, state changes, clonings and
    constructions, on this node or on others, whether they return or
    raise, [hash(node)] is what it was. *)
Theorem hash_fixed_and_stable :
  (forall w cls role name self w',
     construct cls role name w = (inr self, w') ->
     results w !! self = None /\
     Result_hash self w' = (inr (hashgen (hashgen_calls w)), w')) /\
  (forall script w self r,
     results w !! self = Some r ->
     Result_hash self (run script w) = (inr (_hash_id r), run script w)).
Proof.
  split.
  - intros w cls role name self w' Hc.
    destruct name as [| s | other].
    + rewrite construct_run in Hc by done. injection Hc as <- <-.
      split; [apply fresh_result_None|].
      unfold Result_hash, bind, load. simpl. by rewrite lookup_insert_eq.
    + rewrite construct_run in Hc by done. injection Hc as <- <-.
      split; [apply fresh_result_None|].
      unfold Result_hash, bind, load. simpl. by rewrite lookup_insert_eq.
    + pose proof (construct_TypeError w cls role other) as Ht.
      by rewrite Hc in Ht.
  - intros script w self r H.
    destruct (stable_run (fun _ => True) script w self r I H) as (r' & H' & E).
    unfold Result_hash. run_load H'. by rewrite E.
Qed.

(** ** clone *)

Lemma name_of_name_val n : name_of (name_val n) = n.
Proof. by destruct n. Qed.

Lemma name_val_not_other n other : name_val n <> VOther other.
Proof. by destruct n. Qed.

Lemma fresh_host_None w : host w !! fresh (dom (host w)) = None.
Proof. apply not_elem_of_dom, is_fresh. Qed.

Lemma PythonResult_copy_prefix w self r nm :
  results w !! self = Some r ->
  get_name self w = (inr nm, w) ->
  PythonResult_copy self w
  = (let* c := copy_copy (_data r) in
     set_data (fresh (dom (results w))) c ;;
     ret (fresh (dom (results w)))) (after_construct nm w).
Proof.
  intros H Hn. unfold PythonResult_copy.
  rewrite (bind_run _ _ _ _ _ Hn).
  pose proof (construct_run w PythonResultClass None (name_val nm)
                (name_val_not_other nm)) as Hc.
  simpl in Hc. rewrite name_of_name_val in Hc.
  rewrite (bind_run _ _ _ _ _ Hc). fold (blank_copy nm w). fold (after_construct nm w).
  assert (Hs : results (after_construct nm w) !! self = Some r).
  { unfold after_construct; simpl. rewrite lookup_insert_ne; [done|].
    intros E. rewrite <- E in H. by rewrite fresh_result_None in H. }
  unfold get_data.
  by rewrite (bind_run _ _ _ (_data r) (after_construct nm w))
    by (by run_load Hs).
Qed.

Lemma after_construct_lookup nm w :
  results (after_construct nm w) !! fresh (dom (results w)) = Some (blank_copy nm w).
Proof. apply lookup_insert_eq. Qed.

Lemma after_construct_old nm w self r :
  results w !! self = Some r ->
  results (after_construct nm w) !! self = Some r.
Proof.
  intros H. unfold after_construct; simpl. rewrite lookup_insert_ne; [done|].
  intros E. rewrite <- E in H. by rewrite fresh_result_None in H.
Qed.

(** The copy of a node that holds [None]. *)
Lemma PythonResult_copy_None w self r nm :
  results w !! self = Some r ->
  get_name self w = (inr nm, w) ->
  _data r = PyNone ->
  PythonResult_copy self w = (inr (fresh (dom (results w))), after_construct nm w).
Proof.
  intros H Hn Hd. rewrite (PythonResult_copy_prefix _ _ _ _ H Hn), Hd.
  rewrite (bind_run _ _ (after_construct nm w) PyNone (after_construct nm w)) by done.
  by rewrite (bind_run _ _ _ _ _
                (set_data_same _ _ _ (after_construct_lookup nm w))).
Qed.

(** Assigning a datum to the fresh copy. *)
Lemma set_data_blank_copy nm w w1 a :
  results w1 = results (after_construct nm w) ->
  set_data (fresh (dom (results w))) (PyObj a) w1
  = (inr tt,
     put_result (fresh (dom (results w)))
       (with_state Computed (with_data (PyObj a) (blank_copy nm w))) w1).
Proof.
  intros E.
  assert (H1 : results w1 !! fresh (dom (results w)) = Some (blank_copy nm w)).
  { rewrite E. apply after_construct_lookup. }
  apply (set_data_store _ _ _ _ _ _ H1); try done.
  by apply (filter_absent _ _ _ _ H1); right.
Qed.

(** The copy of a node that holds an immutable object. *)
Lemma PythonResult_copy_atom w self r nm a z :
  results w !! self = Some r ->
  get_name self w = (inr nm, w) ->
  _data r = PyObj a ->
  host w !! a = Some (HAtom z) ->
  PythonResult_copy self w
  = (inr (fresh (dom (results w))),
     put_result (fresh (dom (results w)))
       (with_state Computed (with_data (PyObj a) (blank_copy nm w)))
       (after_construct nm w)).
Proof.
  intros H Hn Hd Ha. rewrite (PythonResult_copy_prefix _ _ _ _ H Hn), Hd.
  rewrite (bind_run _ _ (after_construct nm w) (PyObj a) (after_construct nm w)).
  2:{ unfold copy_copy, after_construct; simpl. by rewrite Ha. }
  cbv beta.
  by rewrite (bind_run _ _ _ _ _
                (set_data_blank_copy nm w (after_construct nm w) a eq_refl)).
Qed.

(** The copy of a node that holds a container. *)
Lemma PythonResult_copy_list w self r nm a items :
  results w !! self = Some r ->
  get_name self w = (inr nm, w) ->
  _data r = PyObj a ->
  host w !! a = Some (HList items) ->
  PythonResult_copy self w
  = (inr (fresh (dom (results w))),
     put_result (fresh (dom (results w)))
       (with_state Computed
          (with_data (PyObj (fresh (dom (host w)))) (blank_copy nm w)))
       (put_host (fresh (dom (host w))) (HList items) (after_construct nm w))).
Proof.
  intros H Hn Hd Ha. rewrite (PythonResult_copy_prefix _ _ _ _ H Hn), Hd.
  rewrite (bind_run _ _ (after_construct nm w) (PyObj (fresh (dom (host w))))
             (put_host (fresh (dom (host w))) (HList items) (after_construct nm w))).
  2:{ unfold copy_copy, after_construct; simpl. by rewrite Ha. }
  cbv beta.
  by rewrite (bind_run _ _ _ _ _
                (set_data_blank_copy nm w
                   (put_host (fresh (dom (host w))) (HList items)
                      (after_construct nm w)) _ eq_refl)).
Qed.

Lemma clone_PythonResult w self r :
  results w !! self = Some r ->
  klass r = PythonResultClass ->
  clone self w = PythonResult_copy self w.
Proof.
  intros H Hk. unfold clone.
  run_load H. by rewrite Hk.
Qed.

(** C8 (as amended). [clone] on a node whose class has no [__copy__] of
    its own raises [AbstractFunctionError] and changes nothing. On a
    [PythonResult] whose name can be read it returns a node that was not
    there before, of class [PythonResult], with role [None], named as the
    original reads, and leaves the original as it was. The datum of the
    new node is [None] (state [Empty]) when the original holds [None];
    the very same object when the original holds an immutable object;
    and, when the original holds a container, a container at a new
    address with the same items. Assigning items to that new container
    leaves the container of the original as it was. *)
Theorem clone_spec w self r :
  results w !! self = Some r ->
  (klass r = ResultClass \/ (exists flt, klass r = FilteringClass flt) ->
   clone self w = (inl AbstractFunctionError, w)) /\
  (forall nm,
     klass r = PythonResultClass ->
     get_name self w = (inr nm, w) ->
     let rval := fresh (dom (results w)) in
     let h := hashgen (hashgen_calls w) in
     results w !! rval = None /\
     (_data r = PyNone ->
      exists w',
        clone self w = (inr rval, w') /\
        results w' !! rval
        = Some (mkResult PythonResultClass None PyNone Empty nm h) /\
        results w' !! self = Some r /\
        host w' = host w) /\
     (forall a z,
        _data r = PyObj a ->
        host w !! a = Some (HAtom z) ->
        exists w',
          clone self w = (inr rval, w') /\
          results w' !! rval
          = Some (mkResult PythonResultClass None (PyObj a) Computed nm h) /\
          results w' !! self = Some r /\
          host w' = host w) /\
     (forall a items,
        _data r = PyObj a ->
        host w !! a = Some (HList items) ->
        let a' := fresh (dom (host w)) in
        exists w',
          clone self w = (inr rval, w') /\
          results w' !! rval
          = Some (mkResult PythonResultClass None (PyObj a') Computed nm h) /\
          results w' !! self = Some r /\
          a' <> a /\
          host w !! a' = None /\
          host w' !! a' = Some (HList items) /\
          host w' !! a = Some (HList items) /\
          forall items',
            exists w'',
              host_set_items (PyObj a') items' w' = (inr tt, w'') /\
              host w'' !! a' = Some (HList items') /\
              host w'' !! a = Some (HList items))).
Proof.
  intros H. split.
  - intros Hk. unfold clone.
    run_load H.
    by destruct Hk as [-> | [flt ->]].
  - intros nm Hk Hn rval h.
    assert (Hself : self <> rval).
    { intros E. rewrite E in H. unfold rval in H. by rewrite fresh_result_None in H. }
    split; [apply fresh_result_None|]. split; [|split].
    + intros Hd. eexists. split.
      { rewrite (clone_PythonResult _ _ _ H Hk).
        by apply (PythonResult_copy_None _ _ r nm). }
      split; [apply after_construct_lookup|].
      split; [by apply after_construct_old | done].
    + intros a z Hd Ha. eexists. split.
      { rewrite (clone_PythonResult _ _ _ H Hk).
        by apply (PythonResult_copy_atom _ _ r nm a z). }
      split; [apply put_result_lookup|]. split; [|done].
      rewrite put_result_lookup_ne by done. by apply after_construct_old.
    + intros a items Hd Ha a'.
      assert (Ha' : a' <> a).
      { intros E. rewrite <- E in Ha. unfold a' in Ha.
        by rewrite fresh_host_None in Ha. }
      eexists. split.
      { rewrite (clone_PythonResult _ _ _ H Hk).
        by apply (PythonResult_copy_list _ _ r nm a items). }
      split; [apply put_result_lookup|]. split.
      { rewrite put_result_lookup_ne by done. by apply after_construct_old. }
      split; [done|]. split; [apply fresh_host_None|].
      split; [apply lookup_insert_eq|]. split.
      { simpl. by rewrite lookup_insert_ne. }
      intros items'. eexists. split.
      { unfold host_set_items. simpl. by rewrite lookup_insert_eq. }
      simpl. split; [apply lookup_insert_eq|].
      by rewrite !lookup_insert_ne.
Qed.

(** * Further properties *)

(** ** role, owner, index *)

Lemma get_role_run w self r :
  results w !! self = Some r -> get_role self w = (inr (_role r), w).
Proof. intros H. unfold get_role. by run_load H. Qed.

Lemma get_owner_run w self r :
  results w !! self = Some r -> get_owner self w = (inr (fst <$> _role r), w).
Proof. intros H. unfold get_owner. run_load H. by destruct (_role r). Qed.

Lemma get_index_run w self r :
  results w !! self = Some r -> get_index self w = (inr (snd <$> _role r), w).
Proof. intros H. unfold get_index. run_load H. by destruct (_role r). Qed.

(** X1. On a node without role, [owner] and [index] read [None]; binding
    it to [(owner, index)] succeeds, after which [role], [owner] and
    [index] read back what was bound, and no other node has changed. *)
Theorem set_role_then_read w self r owner index :
  results w !! self = Some r ->
  _role r = None ->
  get_owner self w = (inr None, w) /\
  get_index self w = (inr None, w) /\
  exists w',
    set_role self (owner, index) w = (inr tt, w') /\
    get_role self w' = (inr (Some (owner, index)), w') /\
    get_owner self w' = (inr (Some owner), w') /\
    get_index self w' = (inr (Some index), w') /\
    (forall other, other <> self -> results w' !! other = results w !! other).
Proof.
  intros H Hr.
  split; [by rewrite (get_owner_run _ _ _ H), Hr|].
  split; [by rewrite (get_index_run _ _ _ H), Hr|].
  eexists. split; [by apply set_role_unbound|].
  pose proof (put_result_lookup w self (with_role (Some (owner, index)) r)) as H'.
  split; [by rewrite (get_role_run _ _ _ H')|].
  split; [by rewrite (get_owner_run _ _ _ H')|].
  split; [by rewrite (get_index_run _ _ _ H')|].
  intros other Hne. by apply put_result_lookup_ne.
Qed.

(** ** name *)

Lemma derived_name_nonempty (c : string) (i : nat) : c +:+ "." +:+ pretty i <> "".
Proof.
  intros E. apply (f_equal String.length) in E.
  rewrite !length_append in E. simpl in E. lia.
Qed.

(** [__get_name] writes nothing, and a name it returns is not empty. *)
Lemma get_name_cases w self :
  exists x, get_name self w = (x, w) /\ forall n, x = inr (Some n) -> n <> "".
Proof.
  destruct (results w !! self) as [r|] eqn:H.
  2:{ eexists. split; [unfold get_name, bind, load; by rewrite H | done]. }
  destruct (name_truthy (_name r)) eqn:Hn.
  { eexists. split; [unfold get_name; run_load H; by rewrite Hn|].
    intros n [= E]. rewrite E in Hn. simpl in Hn. by intros ->. }
  destruct (_role r) as [[owner index]|] eqn:Hr.
  2:{ eexists. split; [by apply (get_name_unbound _ _ r) | done]. }
  destruct (ops w !! owner) as [op|] eqn:Ho.
  - rewrite (get_name_derived _ _ _ _ _ _ H Hn Hr Ho).
    destruct (list_index (outputs op) self) as [i|]; eexists; (split; [done|]).
    + intros n [= <-]. apply derived_name_nonempty.
    + done.
  - exists (inl AttributeError). split; [|done].
    unfold get_name. run_load H. rewrite Hn, Hr.
    unfold get_owner.
    rewrite (bind_run _ _ w (Some owner) w) by (by (run_load H; rewrite Hr)).
    unfold bind, load_op. by rewrite Ho.
Qed.

Lemma get_name_pure w self : snd (get_name self w) = w.
Proof. destruct (get_name_cases w self) as (x & E & _). by rewrite E. Qed.

Lemma get_name_returns w self n w' :
  get_name self w = (inr (Some n), w') -> n <> "" /\ w' = w.
Proof.
  intros E. destruct (get_name_cases w self) as (x & E' & Hx).
  rewrite E' in E. injection E as -> ->. split; [by apply Hx | done].
Qed.

Lemma name_truthy_Some n : n <> "" -> name_truthy (Some n) = true.
Proof. intros H. simpl. by rewrite bool_decide_eq_false_2. Qed.

(** X2. Whatever [name] reads, reading it changes nothing; when it
    reads a string, the string is not empty, and [repr] of the node is
    that string; when it reads [None], [repr] is ["<?>"]. *)
Theorem get_name_never_empty w self n w' :
  get_name self w = (inr n, w') ->
  w' = w /\
  n <> Some "" /\
  Result_repr self w = (inr (default "<?>" n), w).
Proof.
  intros E.
  assert (Hw : w' = w) by (by rewrite <- (get_name_pure w self), E).
  subst w'. split; [done|].
  unfold Result_repr. rewrite (bind_run _ _ _ _ _ E).
  destruct n as [n|]; [|done].
  destruct (get_name_returns _ _ _ _ E) as [Hn _].
  split; [congruence|]. by rewrite (name_truthy_Some _ Hn).
Qed.

(** X3. Assigning to [name] something that is neither [None] nor a
    string raises [TypeError] and changes nothing. Assigning a non-empty
    string changes the name slot only, and [name] then reads that
    string, whatever the role. Assigning [None] clears the slot, and on
    a node without role [name] then reads [None]. *)
Theorem set_name_spec w self r :
  results w !! self = Some r ->
  (forall other, set_name self (VOther other) w = (inl TypeError, w)) /\
  (forall s, s <> "" ->
     exists w',
       set_name self (VStr s) w = (inr tt, w') /\
       results w' !! self = Some (with_name (Some s) r) /\
       get_name self w' = (inr (Some s), w')) /\
  (exists w',
     set_name self VNone w = (inr tt, w') /\
     results w' !! self = Some (with_name None r) /\
     (_role r = None -> get_name self w' = (inr None, w'))).
Proof.
  intros H. split; [done|]. split.
  - intros s Hs. eexists. split; [by apply update_run|].
    split; [apply put_result_lookup|].
    by apply (get_name_named _ _ _ s (put_result_lookup _ _ _)).
  - eexists. split; [by apply update_run|].
    split; [apply put_result_lookup|]. intros Hr.
    by apply (get_name_unbound _ _ _ (put_result_lookup _ _ _)).
Qed.

(** ** String representation *)

(** X4. On a node that is not [Computed], [str] is [repr]. On a
    [Computed] node whose name reads [n], [str] is the name, a colon
    and [str] of the datum when there is a name, and [str] of the datum
    alone when there is none. *)
Theorem Result_str_spec w self r :
  results w !! self = Some r ->
  (state r <> Computed -> Result_str self w = Result_repr self w) /\
  (forall n,
     state r = Computed ->
     get_name self w = (inr n, w) ->
     Result_str self w
     = (inr (match n with
             | Some s => s +:+ ":" +:+ py_str (_data r)
             | None => py_str (_data r)
             end), w)).
Proof.
  intros H. split.
  - intros Hs. unfold Result_str, Result_repr, bind.
    pose proof (get_name_pure w self) as Hp.
    destruct (get_name self w) as [[e|n] w1]; simpl in Hp; subst w1; [done|].
    rewrite (load_run _ _ _ H).
    destruct (name_truthy n); by destruct (decide (state r = Computed)).
  - intros n Hs Hn. unfold Result_str.
    rewrite (bind_run _ _ _ _ _ Hn). run_load H.
    destruct (decide (state r = Computed)); [|done].
    destruct n as [s|]; [|done].
    destruct (get_name_returns _ _ _ _ Hn) as [Hne _].
    by rewrite (name_truthy_Some _ Hne).
Qed.

(** ** Comparison *)

(** X5. [__cmp__] orders nodes by address: it answers "equal" exactly
    when [__eq__] answers true, swapping the arguments swaps the answer,
    and nodes that are equal have the same hash. *)
Theorem Result_cmp_consistent a b :
  (Result_cmp a b = Eq <-> Result_eq a b = true) /\
  Result_cmp b a = CompOpp (Result_cmp a b) /\
  (forall w, Result_eq a b = true -> fst (Result_hash a w) = fst (Result_hash b w)).
Proof.
  unfold Result_cmp, Result_eq. split; [|split].
  - rewrite Pos.compare_eq_iff. by rewrite bool_decide_eq_true.
  - apply Pos.compare_antisym.
  - intros w Hab. apply bool_decide_eq_true in Hab. by subst.
Qed.

(** ** data: the filter *)

Lemma filter_override_raises w self r v flt e :
  results w !! self = Some r ->
  klass r = FilteringClass flt ->
  flt v = inl e ->
  e <> AbstractFunctionError ->
  try_except (filter self v) AbstractFunctionError (ret v) w
  = (inl e, record_call self v w).
Proof.
  intros H Hk Hf He. unfold try_except, filter, bind. rewrite (load_run _ _ _ H).
  rewrite Hk, Hf. by destruct (decide (e = AbstractFunctionError)).
Qed.

Lemma filter_override_abstract w self r v flt :
  results w !! self = Some r ->
  klass r = FilteringClass flt ->
  flt v = inl AbstractFunctionError ->
  try_except (filter self v) AbstractFunctionError (ret v) w
  = (inr v, record_call self v w).
Proof.
  intros H Hk Hf. unfold try_except, filter, bind. rewrite (load_run _ _ _ H).
  by rewrite Hk, Hf.
Qed.

Lemma set_data_raise w self r v e w1 :
  results w !! self = Some r ->
  v <> _data r ->
  v <> PyNone ->
  try_except (filter self v) AbstractFunctionError (ret v) w = (inl e, w1) ->
  set_data self v w = (inl e, w1).
Proof.
  intros H Hv Hn Hf. unfold set_data. run_load H.
  rewrite (proj2 (py_is_false v (_data r))) by done.
  rewrite (proj2 (py_is_false v PyNone)) by done.
  by rewrite (bind_raise _ _ _ _ _ Hf).
Qed.

(** X6. When the filter of the class refuses a value with an exception
    of its own, the assignment raises that exception and the node keeps
    its datum and its state; when the filter raises the abstract-function
    error, the value is stored as it is and the state is [Computed]. *)
Theorem set_data_filter_raises w self r flt v e :
  results w !! self = Some r ->
  klass r = FilteringClass flt ->
  v <> PyNone ->
  v <> _data r ->
  flt v = inl e ->
  exists w',
    results w' !! self
    = Some (if decide (e = AbstractFunctionError)
            then with_state Computed (with_data v r) else r) /\
    set_data self v w
    = (if decide (e = AbstractFunctionError) then inr tt else inl e, w').
Proof.
  intros H Hk Hn Hv Hf. destruct (decide (e = AbstractFunctionError)) as [->|He].
  - eexists. split; [|apply (set_data_store _ _ _ _ _ _ H Hv Hn
                              (filter_override_abstract _ _ _ _ _ H Hk Hf) eq_refl)].
    apply put_result_lookup.
  - exists (record_call self v w). split; [done|].
    apply (set_data_raise _ _ _ _ _ _ H Hv Hn).
    by apply (filter_override_raises _ _ r _ flt).
Qed.

(** X7. An assignment to [data] calls the filter of the class at most
    once, with the value assigned: exactly when the class has a filter
    and the value is neither the object held nor [None]. *)
Theorem set_data_filter_calls w self r v :
  results w !! self = Some r ->
  filter_calls (snd (set_data self v w))
  = if has_filter (klass r) && negb (py_is v (_data r)) && negb (py_is v PyNone)
    then (self, v) :: filter_calls w
    else filter_calls w.
Proof.
  intros H. destruct (decide (v = _data r)) as [->|Hv].
  { rewrite (set_data_same _ _ _ H), (proj2 (py_is_true _ _) eq_refl).
    by rewrite andb_false_r. }
  rewrite (proj2 (py_is_false v (_data r)) Hv).
  destruct (decide (v = PyNone)) as [->|Hn].
  { rewrite (set_data_clear _ _ _ H) by done. by rewrite andb_false_r. }
  rewrite (proj2 (py_is_false v PyNone) Hn). rewrite !andb_true_r.
  destruct (klass r) as [| |flt] eqn:Hk.
  - by rewrite (set_data_store _ _ _ _ _ _ H Hv Hn
                  (filter_absent _ _ _ _ H (or_introl Hk)) eq_refl).
  - by rewrite (set_data_store _ _ _ _ _ _ H Hv Hn
                  (filter_absent _ _ _ _ H (or_intror Hk)) eq_refl).
  - simpl. destruct (flt v) as [e|d] eqn:Hf.
    + destruct (decide (e = AbstractFunctionError)) as [->|He].
      * by rewrite (set_data_store _ _ _ _ _ _ H Hv Hn
                      (filter_override_abstract _ _ _ _ _ H Hk Hf) eq_refl).
      * by rewrite (set_data_raise _ _ _ _ _ _ H Hv Hn
                      (filter_override_raises _ _ _ _ _ _ H Hk Hf He)).
    + by rewrite (set_data_store _ _ _ _ _ _ H Hv Hn
                    (filter_present _ _ _ _ _ _ H Hk Hf) eq_refl).
Qed.

(** The node after an assignment on a class without filter. *)
Lemma set_data_plain w self r v :
  results w !! self = Some r ->
  has_filter (klass r) = false ->
  exists w1,
    set_data self v w = (inr tt, w1) /\
    results w1 !! self
    = Some (if decide (v = _data r) then r
            else if decide (v = PyNone) then with_state Empty (with_data PyNone r)
            else with_state Computed (with_data v r)).
Proof.
  intros H Hk. destruct (decide (v = _data r)) as [->|Hv].
  { exists w. by rewrite (set_data_same _ _ _ H). }
  destruct (decide (v = PyNone)) as [->|Hn].
  { eexists. split; [by apply set_data_clear | apply put_result_lookup]. }
  assert (Hc : klass r = ResultClass \/ klass r = PythonResultClass)
    by (destruct (klass r); auto; done).
  eexists.
  split; [apply (set_data_store _ _ _ _ _ _ H Hv Hn (filter_absent _ _ _ _ H Hc) eq_refl)|].
  apply put_result_lookup.
Qed.

(** X8. On a class without filter, [data] reads back whatever was
    assigned, and assigning the same value a second time changes
    nothing. *)
Theorem set_data_read_back w self r v :
  results w !! self = Some r ->
  has_filter (klass r) = false ->
  exists w1,
    set_data self v w = (inr tt, w1) /\
    get_data self w1 = (inr v, w1) /\
    set_data self v w1 = (inr tt, w1).
Proof.
  intros H Hk.
  destruct (set_data_plain _ _ _ v H Hk) as (w1 & Hs & H1).
  set (r1 := if decide (v = _data r) then r else _) in H1.
  assert (Hd : _data r1 = v).
  { unfold r1. destruct (decide (v = _data r)); [done|].
    by destruct (decide (v = PyNone)). }
  exists w1. split; [done|]. split.
  - unfold get_data. run_load H1. by rewrite Hd.
  - rewrite <- Hd at 1. by apply set_data_same.
Qed.

(** ** Construction *)

Lemma construct_returns_name w cls role name self w' :
  construct cls role name w = (inr self, w') ->
  forall other, name <> VOther other.
Proof.
  intros Hc other ->. pose proof (construct_TypeError w cls role other) as Ht.
  by rewrite Hc in Ht.
Qed.

(** X9. A constructor call given a name that is neither [None] nor a
    string raises [TypeError]. Otherwise it returns a node that was not
    in the store, with the class, role and name given, no datum and
    state [Empty], and leaves every other node as it was. *)
Theorem construct_spec w cls role name :
  (forall other, fst (construct cls role (VOther other) w) = inl TypeError) /\
  ((forall other, name <> VOther other) ->
   exists self w',
     construct cls role name w = (inr self, w') /\
     results w !! self = None /\
     results w' !! self
     = Some (mkResult cls role PyNone Empty (name_of name)
                      (hashgen (hashgen_calls w))) /\
     get_data self w' = (inr PyNone, w') /\
     get_role self w' = (inr role, w') /\
     (forall a r, results w !! a = Some r -> results w' !! a = Some r)).
Proof.
  split; [intros other; apply construct_TypeError|].
  intros Hn. eexists _, _.
  split; [by apply construct_run|]. split; [apply fresh_result_None|].
  assert (Hl : forall x, results (mkWorld (<[fresh (dom (results w)) := x]> (results w))
                                   (ops w) (host w) (filter_calls w)
                                   (S (hashgen_calls w)))
                         !! fresh (dom (results w)) = Some x)
    by (intros x; apply lookup_insert_eq).
  split; [apply Hl|].
  split; [unfold get_data; by run_load (Hl (mkResult cls role PyNone Empty (name_of name)
                                               (hashgen (hashgen_calls w))))|].
  split; [by rewrite (get_role_run _ _ _ (Hl _))|].
  intros a r Ha. simpl. rewrite lookup_insert_ne; [done|].
  intros E. rewrite <- E in Ha. by rewrite fresh_result_None in Ha.
Qed.

(** X10. Two constructor calls in a row return two different nodes,
    which are therefore unequal, and their hashes are two successive
    values of [utils.hashgen]. *)
Theorem construct_twice w cls1 role1 name1 cls2 role2 name2 a w1 b w2 :
  construct cls1 role1 name1 w = (inr a, w1) ->
  construct cls2 role2 name2 w1 = (inr b, w2) ->
  a <> b /\
  Result_eq a b = false /\
  Result_hash a w2 = (inr (hashgen (hashgen_calls w)), w2) /\
  Result_hash b w2 = (inr (hashgen (S (hashgen_calls w))), w2).
Proof.
  intros H1 H2.
  rewrite (construct_run _ _ _ _ (construct_returns_name _ _ _ _ _ _ H1)) in H1.
  rewrite (construct_run _ _ _ _ (construct_returns_name _ _ _ _ _ _ H2)) in H2.
  injection H1 as <- <-. injection H2 as <- <-. simpl.
  set (a := fresh (dom (results w))).
  set (ra := mkResult cls1 role1 PyNone Empty (name_of name1) (hashgen (hashgen_calls w))).
  set (b := fresh (dom (<[a := ra]> (results w)))).
  assert (Hab : a <> b).
  { intros E. pose proof (is_fresh (dom (<[a := ra]> (results w)))) as Hf.
    fold b in Hf. rewrite <- E in Hf. apply Hf.
    apply elem_of_dom. rewrite lookup_insert_eq. by eexists. }
  split; [done|]. split; [by apply bool_decide_eq_false_2|].
  unfold Result_hash, bind, load. simpl. split.
  - rewrite lookup_insert_ne by done. by rewrite lookup_insert_eq.
  - by rewrite lookup_insert_eq.
Qed.

(** X11. [python_result] returns a new [PythonResult] that holds the
    very datum given, unfiltered: in state [Empty] when the datum is
    [None] and in state [Computed] otherwise. *)
Theorem python_result_spec w data role name :
  (forall other, name <> VOther other) ->
  exists self w',
    python_result data role name w = (inr self, w') /\
    results w !! self = None /\
    results w' !! self
    = Some (mkResult PythonResultClass role data
                     (if decide (data = PyNone) then Empty else Computed)
                     (name_of name) (hashgen (hashgen_calls w))).
Proof.
  intros Hn. unfold python_result.
  rewrite (bind_run _ _ _ _ _ (construct_run w PythonResultClass role name Hn)).
  set (self := fresh (dom (results w))).
  set (r0 := mkResult PythonResultClass role PyNone Empty (name_of name)
                      (hashgen (hashgen_calls w))).
  set (w0 := mkWorld _ _ _ _ _).
  assert (H0 : results w0 !! self = Some r0) by apply lookup_insert_eq.
  destruct (set_data_plain w0 self r0 data H0 eq_refl) as (w1 & Hs & H1).
  exists self, w1. rewrite (bind_run _ _ _ _ _ Hs).
  split; [done|]. split; [apply fresh_result_None|].
  rewrite H1. simpl. by destruct (decide (data = PyNone)) as [->|].
Qed.

(** ** The copy of a node *)

Lemma clone_returns_class w self r rval w' :
  results w !! self = Some r ->
  clone self w = (inr rval, w') ->
  klass r = PythonResultClass.
Proof.
  intros H. unfold clone. run_load H. by destruct (klass r).
Qed.

Lemma get_name_of_copy w1 rval r1 nm :
  results w1 !! rval = Some r1 ->
  _name r1 = nm ->
  _role r1 = None ->
  nm <> Some "" ->
  get_name rval w1 = (inr nm, w1).
Proof.
  intros H1 Hn Hr Hne. destruct nm as [n|].
  - apply (get_name_named _ _ r1); [done..|]. congruence.
  - apply (get_name_unbound _ _ r1); [done| |done]. by rewrite Hn.
Qed.

(** X12. When the copy of a node succeeds, the new node reads the same
    name as the original, has a hash of its own, the next value of
    [utils.hashgen], and the original is as it was. *)
Theorem clone_keeps_name w self r nm rval w' :
  results w !! self = Some r ->
  get_name self w = (inr nm, w) ->
  clone self w = (inr rval, w') ->
  get_name rval w' = (inr nm, w') /\
  Result_hash rval w' = (inr (hashgen (hashgen_calls w)), w') /\
  rval <> self /\
  results w' !! self = Some r.
Proof.
  intros H Hn Hc.
  pose proof (clone_returns_class _ _ _ _ _ H Hc) as Hk.
  rewrite (clone_PythonResult _ _ _ H Hk) in Hc.
  assert (Hne : nm <> Some "").
  { intros ->. by destruct (get_name_returns _ _ _ _ Hn). }
  assert (Hself : fresh (dom (results w)) <> self).
  { intros E. rewrite <- E in H. by rewrite fresh_result_None in H. }
  assert (Hrval : exists r1,
             rval = fresh (dom (results w)) /\
             results w' !! rval = Some r1 /\
             _name r1 = nm /\ _role r1 = None /\
             _hash_id r1 = hashgen (hashgen_calls w) /\
             results w' !! self = Some r).
  { destruct (_data r) as [|a] eqn:Hd.
    - rewrite (PythonResult_copy_None _ _ _ _ H Hn Hd) in Hc.
      injection Hc as <- <-. exists (blank_copy nm w).
      split; [done|]. split; [apply after_construct_lookup|].
      do 3 (split; [done|]). by apply after_construct_old.
    - destruct (host w !! a) as [[z|items]|] eqn:Ha.
      + rewrite (PythonResult_copy_atom _ _ _ _ _ _ H Hn Hd Ha) in Hc.
        injection Hc as <- <-. eexists.
        split; [done|]. split; [apply put_result_lookup|].
        do 3 (split; [done|]).
        rewrite put_result_lookup_ne by done. by apply after_construct_old.
      + rewrite (PythonResult_copy_list _ _ _ _ _ _ H Hn Hd Ha) in Hc.
        injection Hc as <- <-. eexists.
        split; [done|]. split; [apply put_result_lookup|].
        do 3 (split; [done|]).
        rewrite put_result_lookup_ne by done. by apply after_construct_old.
      + rewrite (PythonResult_copy_prefix _ _ _ _ H Hn), Hd in Hc.
        unfold bind, copy_copy, after_construct in Hc. simpl in Hc.
        by rewrite Ha in Hc. }
  destruct Hrval as (r1 & -> & H1 & Hnm & Hro & Hh & Hold).
  split; [by apply (get_name_of_copy _ _ r1)|].
  split; [unfold Result_hash; run_load H1; by rewrite Hh|].
  done.
Qed.

(** ** What the operations do to the nodes of a store *)

Lemma Result_str_pure w self : snd (Result_str self w) = w.
Proof.
  unfold Result_str, bind. pose proof (get_name_pure w self) as Hp.
  destruct (get_name self w) as [[e|n] w1]; simpl in Hp; subst w1; [done|].
  unfold load. destruct (results w !! self) as [r|]; [|done].
  destruct (name_truthy n); by destruct (decide (state r = Computed)).
Qed.

(** ** Rebinding a role *)




Lemma set_data_effect w self v :
  results (snd (set_data self v w)) = results w \/
  exists r r',
    results w !! self = Some r /\
    data_step r r' /\
    results (snd (set_data self v w)) = <[self := r']> (results w).
Proof.
  destruct (results w !! self) as [r|] eqn:H.
  2:{ left. unfold set_data, bind, load. by rewrite H. }
  destruct (decide (v = _data r)) as [->|Hv].
  { left. by rewrite (set_data_same _ _ _ H). }
  destruct (decide (v = PyNone)) as [->|Hn].
  { right. exists r, (with_state Empty (with_data PyNone r)).
    split; [done|]. split; [by left|]. by rewrite (set_data_clear _ _ _ H). }
  destruct (klass r) as [| |flt] eqn:Hk.
  - right. exists r, (with_state Computed (with_data v r)).
    split; [done|]. split; [right; by exists v|].
    by rewrite (set_data_store _ _ _ _ _ _ H Hv Hn
                  (filter_absent _ _ _ _ H (or_introl Hk)) eq_refl).
  - right. exists r, (with_state Computed (with_data v r)).
    split; [done|]. split; [right; by exists v|].
    by rewrite (set_data_store _ _ _ _ _ _ H Hv Hn
                  (filter_absent _ _ _ _ H (or_intror Hk)) eq_refl).
  - destruct (flt v) as [e|d] eqn:Hf.
    + destruct (decide (e = AbstractFunctionError)) as [->|He].
      * right. exists r, (with_state Computed (with_data v r)).
        split; [done|]. split; [right; by exists v|].
        by rewrite (set_data_store _ _ _ _ _ _ H Hv Hn
                      (filter_override_abstract _ _ _ _ _ H Hk Hf) eq_refl).
      * left. by rewrite (set_data_raise _ _ _ _ _ _ H Hv Hn
                            (filter_override_raises _ _ _ _ _ _ H Hk Hf He)).
    + right. exists r, (with_state Computed (with_data d r)).
      split; [done|]. split.
      { right. exists d. split; [|done]. by rewrite Hk. }
      by rewrite (set_data_store _ _ _ _ _ _ H Hv Hn
                    (filter_present _ _ _ _ _ _ H Hk Hf) eq_refl).
Qed.

Lemma set_role_effect w self role :
  results (snd (set_role self role w)) = results w \/
  exists r,
    results w !! self = Some r /\
    _role r = None /\
    results (snd (set_role self role w)) = <[self := with_role (Some role) r]> (results w).
Proof.
  destruct (results w !! self) as [r|] eqn:H.
  2:{ left. destruct role. unfold set_role, bind, load. by rewrite H. }
  destruct (_role r) as [[_owner _index]|] eqn:Hr.
  - left. destruct role as [owner index]. unfold set_role. run_load H. rewrite Hr.
    assert (Hraise : snd ((let* s := Result_str self in raise (A := unit) ValueError) w) = w).
    { unfold bind. pose proof (Result_str_pure w self) as Hp.
      by destruct (Result_str self w) as [[e|s] w1]. }
    destruct (negb (bool_decide (_owner = owner))); [by rewrite Hraise|].
    destruct (negb (bool_decide (_index = index))); [by rewrite Hraise|done].
  - right. exists r. split; [done|]. split; [done|].
    by rewrite (set_role_unbound _ _ _ _ H Hr).
Qed.

Lemma update_effect w self f :
  results (snd (update self f w)) = results w \/
  exists r,
    results w !! self = Some r /\
    results (snd (update self f w)) = <[self := f r]> (results w).
Proof.
  unfold update. destruct (results w !! self) as [r|] eqn:H; [|by left].
  right. by exists r.
Qed.

Lemma construct_effect w cls role name :
  exists r',
    _data r' = PyNone /\ state r' = Empty /\ klass r' = cls /\
    results (snd (construct cls role name w))
    = <[fresh (dom (results w)) := r']> (results w).
Proof.
  destruct name as [|s|other].
  - exists (mkResult cls role PyNone Empty None (hashgen (hashgen_calls w))).
    by rewrite construct_run.
  - exists (mkResult cls role PyNone Empty (Some s) (hashgen (hashgen_calls w))).
    by rewrite construct_run.
  - exists (mkResult cls role PyNone Empty None 0).
    unfold construct, bind at 1, new.
    set (self := fresh (dom (results w))). set (r0 := mkResult cls None _ _ _ _).
    unfold bind.
    rewrite (Result_init_prefix _ self r0 role (VOther other)
               (put_result_lookup _ _ _) eq_refl).
    by rewrite put_result_twice.
Qed.

Section Evolution.

Variable R : ResultObj -> ResultObj -> Prop.
Variable N : ResultObj -> Prop.

Hypothesis R_refl : forall r, R r r.
Hypothesis R_trans : forall r1 r2 r3, R r1 r2 -> R r2 r3 -> R r1 r3.
Hypothesis N_R : forall r r', N r -> R r r' -> N r'.
Hypothesis R_data : forall r r', data_step r r' -> R r r'.
Hypothesis R_role : forall r role, _role r = None -> R r (with_role (Some role) r).
Hypothesis R_name : forall r n, R r (with_name n r).
Hypothesis N_new : forall r, _data r = PyNone -> state r = Empty -> N r.

Lemma evolves_same w w' : results w' = results w -> evolves R N w w'.
Proof.
  intros E. split.
  - intros a r Ha. exists r. by rewrite E.
  - intros a r' Ha Ha'. rewrite E in Ha'. congruence.
Qed.

Lemma evolves_trans w1 w2 w3 :
  evolves R N w1 w2 -> evolves R N w2 w3 -> evolves R N w1 w3.
Proof.
  intros [O12 N12] [O23 N23]. split.
  - intros a r Ha. destruct (O12 a r Ha) as (r2 & H2 & R2).
    destruct (O23 a r2 H2) as (r3 & H3 & R3). exists r3. eauto.
  - intros a r3 Ha H3. destruct (results w2 !! a) as [r2|] eqn:H2.
    + destruct (O23 a r2 H2) as (r3' & H3' & R3).
      assert (r3' = r3) by congruence. subst r3'.
      apply (N_R r2); [by apply (N12 a) | done].
    + by apply (N23 a).
Qed.

Lemma evolves_put w w' self r r' :
  results w !! self = Some r ->
  R r r' ->
  results w' = <[self := r']> (results w) ->
  evolves R N w w'.
Proof.
  intros H HR E. split.
  - intros a r0 Ha. rewrite E. destruct (decide (self = a)) as [->|Hne].
    + exists r'. rewrite lookup_insert_eq. split; [done|]. congruence.
    + exists r0. by rewrite lookup_insert_ne.
  - intros a r0 Ha. rewrite E. destruct (decide (self = a)) as [->|Hne]; [congruence|].
    rewrite lookup_insert_ne by done. congruence.
Qed.

Lemma evolves_new w w' a r' :
  results w !! a = None ->
  N r' ->
  results w' = <[a := r']> (results w) ->
  evolves R N w w'.
Proof.
  intros H HN E. split.
  - intros b r0 Hb. rewrite E. exists r0.
    rewrite lookup_insert_ne; [done|]. congruence.
  - intros b r0 Hb. rewrite E. destruct (decide (a = b)) as [->|Hne].
    + rewrite lookup_insert_eq. congruence.
    + rewrite lookup_insert_ne by done. congruence.
Qed.

Lemma steps_pure {A} (m : M A) : (forall w, snd (m w) = w) -> steps R N m.
Proof. intros Hm w. apply evolves_same. by rewrite Hm. Qed.

Lemma steps_bind {A B} (m : M A) (k : A -> M B) :
  steps R N m -> (forall x, steps R N (k x)) -> steps R N (bind m k).
Proof.
  intros Hm Hk w. unfold bind. specialize (Hm w).
  destruct (m w) as [[e|x] w1]; simpl in *; [done|].
  apply (evolves_trans _ w1); [done | apply Hk].
Qed.

Lemma steps_set_data self v : steps R N (set_data self v).
Proof.
  intros w. destruct (set_data_effect w self v) as [E | (r & r' & H & Hd & E)].
  - by apply evolves_same.
  - apply (evolves_put _ _ self r r'); auto.
Qed.

Lemma steps_set_role self role : steps R N (set_role self role).
Proof.
  intros w. destruct (set_role_effect w self role) as [E | (r & H & Hr & E)].
  - by apply evolves_same.
  - apply (evolves_put _ _ self r (with_role (Some role) r)); auto.
Qed.

Lemma steps_set_name self name : steps R N (set_name self name).
Proof.
  intros w. destruct name as [|s|other]; [| |by apply evolves_same].
  - destruct (update_effect w self (with_name None)) as [E | (r & H & E)];
      [by apply evolves_same | by apply (evolves_put _ _ self r (with_name None r))].
  - destruct (update_effect w self (with_name (Some s))) as [E | (r & H & E)];
      [by apply evolves_same | by apply (evolves_put _ _ self r (with_name (Some s) r))].
Qed.

Lemma steps_construct cls role name : steps R N (construct cls role name).
Proof.
  intros w. destruct (construct_effect w cls role name) as (r' & Hd & Hs & _ & E).
  apply (evolves_new _ _ (fresh (dom (results w))) r');
    [apply fresh_result_None | by apply N_new | done].
Qed.

Lemma steps_clone self : steps R N (clone self).
Proof.
  unfold clone. apply steps_bind.
  { apply steps_pure. intros w. unfold load. by destruct (results w !! self). }
  intros r. destruct (klass r); try (by apply steps_pure).
  unfold PythonResult_copy.
  apply steps_bind; [apply steps_pure; intros w; apply get_name_pure|]. intros n.
  apply steps_bind; [apply steps_construct|]. intros rval.
  apply steps_bind.
  { apply steps_pure. intros w. unfold get_data, bind, load.
    by destruct (results w !! self). }
  intros d. apply steps_bind.
  { intros w. apply evolves_same. destruct d as [|a]; [done|].
    unfold copy_copy. by destruct (host w !! a) as [[z|items]|]. }
  intros c. apply steps_bind; [apply steps_set_data|].
  intros _. by apply steps_pure.
Qed.

(** An action other than a direct write of [state]. *)
Lemma steps_perform target a :
  writes_state a = false -> steps R N (perform target a).
Proof.
  intros Ha. destruct a; simpl; try done.
  - apply steps_set_role.
  - apply steps_set_data.
  - apply steps_set_name.
  - apply steps_bind; [apply steps_clone | intros _; by apply steps_pure].
  - apply steps_bind; [apply steps_construct | intros _; by apply steps_pure].
Qed.

Lemma steps_set_state self s :
  (forall r, R r (with_state s r)) -> steps R N (set_state self s).
Proof.
  intros Hs w. destruct (update_effect w self (with_state s)) as [E | (r & H & E)];
    [by apply evolves_same | by apply (evolves_put _ _ self r (with_state s r))].
Qed.

Lemma evolves_run_plain script w :
  Forall (fun x => writes_state (snd x) = false) script ->
  evolves R N w (run script w).
Proof.
  intros Hs. revert w. induction Hs as [|[target a] script Ha Hs IH]; intros w; simpl.
  - by apply evolves_same.
  - apply (evolves_trans _ (snd (perform target a w))); [by apply steps_perform | apply IH].
Qed.

Lemma evolves_run script w :
  (forall r s, R r (with_state s r)) ->
  evolves R N w (run script w).
Proof.
  intros HS. revert w. induction script as [|[target a] script IH]; intros w; simpl.
  - by apply evolves_same.
  - apply (evolves_trans _ (snd (perform target a w))); [|apply IH].
    destruct (writes_state a) eqn:Ha; [|by apply steps_perform].
    destruct a; try done. simpl. by apply steps_set_state.
Qed.

End Evolution.

Lemma data_step_ok r r' : data_step r r' -> node_ok r'.
Proof.
  intros [-> | (d & Hd & ->)]; split; simpl; try done.
  intros Hk ->. by destruct (Hd Hk).
Qed.

(** X13. As long as client code does not assign to the [state]
    attribute itself, the state follows the datum: if every node that
    holds something is [Computed], and every node of a class without
    filter that holds [None] is [Empty], then the same is true after any
    script of role bindings, data assignments, renamings, copies and
    constructions, of the nodes there were and of the nodes created. *)
Theorem store_ok_kept script w :
  Forall (fun x => writes_state (snd x) = false) script ->
  store_ok w ->
  store_ok (run script w).
Proof.
  intros Hs Hw.
  assert (He : evolves ok_kept node_ok w (run script w)).
  { apply evolves_run_plain.
    - intros r Hr. exact Hr.
    - intros r1 r2 r3 H12 H23 H1. exact (H23 (H12 H1)).
    - intros r r' Hr HR. exact (HR Hr).
    - intros r r' Hd _. exact (data_step_ok r r' Hd).
    - intros r role _ Hok. exact Hok.
    - intros r n Hok. exact Hok.
    - intros r Hd Hst. split; [congruence | done].
    - exact Hs. }
  destruct He as [Hold Hnew]. intros a r' Ha.
  destruct (results w !! a) as [r|] eqn:Hwa.
  - destruct (Hold a r Hwa) as (r'' & Ha' & HR).
    assert (r'' = r') by congruence. subst r''. apply HR. by apply (Hw a).
  - by apply (Hnew a).
Qed.

(** X14. A role, once bound, stays: whatever the script (role bindings,
    data assignments, renamings, state changes, copies, constructions,
    on this node or on others, returning or raising), a node bound to
    [role] before it is bound to [role] after it. *)
Theorem role_kept_by_scripts script w self r role :
  results w !! self = Some r ->
  _role r = Some role ->
  get_role self (run script w) = (inr (Some role), run script w).
Proof.
  intros H Hr.
  assert (He : evolves role_kept (fun _ => True) w (run script w)).
  { apply evolves_run.
    - intros r1 ro H1. exact H1.
    - intros r1 r2 r3 H12 H23 ro H1. exact (H23 ro (H12 ro H1)).
    - done.
    - intros r1 r2 [-> | (d & _ & ->)] ro H1; exact H1.
    - intros r1 ro Hn ro'. congruence.
    - intros r1 n ro H1. exact H1.
    - done.
    - intros r1 s ro H1. exact H1. }
  destruct (proj1 He self r H) as (r' & H' & HR).
  by rewrite (get_role_run _ _ _ H'), (HR role Hr).
Qed.

(** ** The emitted C fragments, further *)

Lemma exec_cleanup_NULL name s :
  cenv s !! name = Some (CPtr None) ->
  exec (cleanup_code name) s = Some s.
Proof.
  intros Hx. unfold cleanup_code, exec, exec_stmt, xdecref. rewrite Hx.
  by destruct s.
Qed.

Lemma exec_sync_NULL name s :
  cenv s !! name = Some (CPtr None) ->
  cenv s !! py_ name = Some (CPtr None) ->
  exec (sync_code name) s
  = Some (mkC (<[py_ name := CPtr None]> (cenv s)) (refcnt s)).
Proof.
  intros Hx Hp. unfold sync_code, exec, exec_stmt, xdecref, xincref.
  rewrite Hp. simpl. rewrite Hp, Hx. simpl. by rewrite lookup_insert_eq.
Qed.

(** X15. Where [py_<name>] is [NULL], the fragments count nothing:
    [declare] and [extract] set the handle to [NULL], and neither
    [cleanup] nor [sync] after them changes a reference count. *)
Theorem PythonResult_NULL_binding name s :
  cenv s !! py_ name = Some (CPtr None) ->
  exists s1,
    exec (declare_code name ++ extract_code name) s = Some s1 /\
    cenv s1 !! name = Some (CPtr None) /\
    refcnt s1 = refcnt s /\
    (exists s2,
       exec (cleanup_code name) s1 = Some s2 /\ refcnt s2 = refcnt s) /\
    (exists s3,
       exec (sync_code name) s1 = Some s3 /\
       cenv s3 !! py_ name = Some (CPtr None) /\
       refcnt s3 = refcnt s).
Proof.
  intros Hp. pose proof (py__neq name) as Hne.
  set (s0 := mkC (<[name := CUndef]> (cenv s)) (refcnt s)).
  assert (Hx0 : cenv s0 !! name = Some CUndef) by apply lookup_insert_eq.
  assert (Hp0 : cenv s0 !! py_ name = Some (CPtr None)).
  { unfold s0; simpl. by rewrite lookup_insert_ne. }
  set (s1 := mkC (<[name := CPtr None]> (cenv s0)) (refcnt s)).
  assert (Hx1 : cenv s1 !! name = Some (CPtr None)) by apply lookup_insert_eq.
  assert (Hp1 : cenv s1 !! py_ name = Some (CPtr None)).
  { unfold s1; simpl. by rewrite lookup_insert_ne. }
  exists s1. split.
  { rewrite exec_app, exec_declare. fold s0.
    by rewrite (exec_extract_NULL name s0 CUndef Hx0 Hp0). }
  do 2 (split; [done|]). split.
  - exists s1. split; [by apply exec_cleanup_NULL | done].
  - eexists. split; [by apply exec_sync_NULL|].
    split; [apply lookup_insert_eq | done].
Qed.

(** X16. [declare] leaves the handle unassigned: running [cleanup] or
    [sync] right after it, without [extract], is undefined. *)
Theorem handle_unassigned_after_declare name s :
  exec (declare_code name ++ cleanup_code name) s = None /\
  exec (declare_code name ++ sync_code name) s = None.
Proof.
  pose proof (py__neq name) as Hne.
  rewrite !exec_app, exec_declare. split.
  - unfold cleanup_code, exec, exec_stmt. simpl. by rewrite lookup_insert_eq.
  - unfold sync_code, exec, exec_stmt. simpl.
    rewrite (lookup_insert_ne _ name (py_ name)) by done.
    destruct (cenv s !! py_ name) as [[|p]|] eqn:Hp; try done.
    destruct (xdecref p (refcnt s)); [|done]. simpl.
    rewrite (lookup_insert_ne _ name (py_ name)) by done.
    by rewrite Hp, lookup_insert_eq.
Qed.


(** ** Nodes that their owner does not list *)

(** X18. A node that has no name of its own, is bound to an owner, and
    does not occur among the outputs of that owner has no readable name:
    [name], [str] and [repr] raise the [ValueError] of [list.index], the
    copy of such a [PythonResult] raises it too, and nothing is
    changed. *)
Theorem unlisted_node_has_no_name w self r owner index op :
  results w !! self = Some r ->
  name_truthy (_name r) = false ->
  _role r = Some (owner, index) ->
  ops w !! owner = Some op ->
  self ∉ outputs op ->
  get_name self w = (inl ValueError, w) /\
  Result_str self w = (inl ValueError, w) /\
  Result_repr self w = (inl ValueError, w) /\
  (klass r = PythonResultClass -> clone self w = (inl ValueError, w)).
Proof.
  intros H Hn Hr Ho Hout.
  pose proof (get_name_unlisted _ _ _ _ _ _ H Hn Hr Ho Hout) as Hg.
  split; [done|]. split; [by apply Result_str_raises|].
  split; [unfold Result_repr; by rewrite (bind_raise _ _ _ _ _ Hg)|].
  intros Hk. rewrite (clone_PythonResult _ _ _ H Hk).
  unfold PythonResult_copy. by rewrite (bind_raise _ _ _ _ _ Hg).
Qed.

(** ** Each node has its own slots *)

(** X19. Binding the role of a node, assigning its datum and renaming
    it change no other node, whether the operation returns or raises. *)
Theorem setters_touch_one_node w self other :
  other <> self ->
  (forall role, results (snd (set_role self role w)) !! other = results w !! other) /\
  (forall v, results (snd (set_data self v w)) !! other = results w !! other) /\
  (forall name, results (snd (set_name self name w)) !! other = results w !! other).
Proof.
  intros Hne. split; [|split].
  - intros role. destruct (set_role_effect w self role) as [-> | (r & _ & _ & ->)];
      [done | by apply lookup_insert_ne].
  - intros v. destruct (set_data_effect w self v) as [-> | (r & r' & _ & _ & ->)];
      [done | by apply lookup_insert_ne].
  - intros name. destruct name as [|s|x]; [| |done].
    + destruct (update_effect w self (with_name None)) as [E | (r & _ & E)];
        unfold set_name, set__name; rewrite E; [done | by apply lookup_insert_ne].
    + destruct (update_effect w self (with_name (Some s))) as [E | (r & _ & E)];
        unfold set_name, set__name; rewrite E; [done | by apply lookup_insert_ne].
Qed.

End Result.

(** * The properties on the sample store *)

(** C1, witness: node 12 of the sample store, which holds [None] in
    state [Allocated]. *)
Lemma set_data_None_spec_witness :
  results ex_world !! 12%positive = Some ex_node12 /\
  exists w' r',
    set_data 12%positive PyNone ex_world = (inr tt, w') /\
    results w' !! 12%positive = Some r' /\
    get_data 12%positive w' = (inr PyNone, w') /\
    _data r' = PyNone /\
    state r' = Allocated.
Proof.
  split; [reflexivity|].
  apply (set_data_None_spec ex_world 12%positive ex_node12). reflexivity.
Defined.

(** C1, counterexample: on node 12 of the sample store, which holds
    [None] in state [Allocated], assigning [None] leaves the state
    [Allocated]. *)
Lemma set_data_None_not_always_Empty :
  ~ (forall w self r,
       results w !! self = Some r ->
       exists w' r',
         set_data self PyNone w = (inr tt, w') /\
         results w' !! self = Some r' /\
         state r' = Empty /\ _data r' = PyNone).
Proof.
  intros Hc.
  destruct (Hc ex_world 12%positive ex_node12 eq_refl) as (w' & r' & Hs & Hl & Hst & _).
  assert (E : set_data 12%positive PyNone ex_world = (inr tt, ex_world))
    by apply (set_data_same ex_world 12%positive ex_node12 eq_refl).
  rewrite E in Hs. assert (Hw : w' = ex_world) by congruence. subst w'.
  assert (Hr : r' = ex_node12) by (change (results ex_world !! 12%positive) with (Some ex_node12) in Hl; congruence).
  subst r'. discriminate Hst.
Qed.

(** The same through assignments alone: a filter that returns [None]
    leaves [None] in a [Computed] node, and assigning [None] after that
    does not change the state. *)
Lemma set_data_None_after_filter :
  exists w1 w2 r2,
    set_data 12%positive (PyObj 40%positive) ex_world = (inr tt, w1) /\
    set_data 12%positive PyNone w1 = (inr tt, w2) /\
    results w2 !! 12%positive = Some r2 /\
    _data r2 = PyNone /\ state r2 = Computed.
Proof.
  eexists _, _, _. split; [by vm_compute|]. split; [by vm_compute|].
  split; [by vm_compute|]. done.
Qed.



(** C4, witness: node 12 of the sample store, whose filter turns the
    object 32 into the object 30. *)
Lemma set_data_value_spec_witness :
  results ex_world !! 12%positive = Some ex_node12 /\
  PyObj 32%positive <> PyNone /\
  PyObj 32%positive <> _data ex_node12 /\
  exists w' r',
    set_data 12%positive (PyObj 32%positive) ex_world = (inr tt, w') /\
    results w' !! 12%positive = Some r' /\
    _data r' = PyObj 30%positive /\ state r' = Computed /\
    get_data 12%positive w' = (inr (PyObj 30%positive), w').
Proof.
  split; [reflexivity|]. split; [discriminate|]. split; [discriminate|].
  apply (proj2 (set_data_value_spec ex_world 12%positive ex_node12
                  (PyObj 32%positive) eq_refl
                  ltac:(discriminate) ltac:(discriminate))
           ex_filter (PyObj 30%positive) eq_refl eq_refl).
Defined.

(** C5, witness: node 11 of the sample store and the object it holds. *)
Lemma set_data_identical_noop_witness :
  results ex_world !! 11%positive = Some ex_node11 /\
  exists w',
    set_data 11%positive (PyObj 30%positive) ex_world = (inr tt, w') /\
    results w' !! 11%positive = Some ex_node11 /\
    filter_calls w' = filter_calls ex_world /\
    w' = ex_world.
Proof.
  split; [reflexivity|].
  apply (set_data_identical_noop ex_world 11%positive ex_node11). reflexivity.
Defined.

(** C6, witness: in the sample store node 11 is named, node 10 is the
    first output of an owner of class [Add], node 12 is unnamed and
    unbound. *)
Lemma get_name_spec_witness :
  results ex_world !! 11%positive = Some ex_node11 /\
  get_name 11%positive ex_world = (inr (Some "y"), ex_world) /\
  get_name 10%positive ex_world = (inr (Some "Add.0"), ex_world) /\
  get_name 12%positive ex_world = (inr None, ex_world).
Proof.
  split; [reflexivity|]. split; [|split].
  - apply (proj1 (get_name_spec ex_world 11%positive ex_node11 eq_refl) "y");
      [reflexivity | discriminate].
  - apply (proj1 (proj2 (get_name_spec ex_world 10%positive ex_node10 eq_refl))
             20%positive 0 ex_op20 0%nat); reflexivity.
  - apply (proj2 (proj2 (get_name_spec ex_world 12%positive ex_node12 eq_refl)));
      reflexivity.
Defined.

(** C6, counterexample: node 12 of the sample store has no name and no
    role, and its name reads [None]. *)
Lemma get_name_not_anonymous :
  ~ (forall w self r,
       results w !! self = Some r ->
       _name r = None ->
       _role r = None ->
       get_name self w = (inr (Some "anonymous"), w)).
Proof.
  intros Hc.
  pose proof (Hc ex_world 12%positive ex_node12 eq_refl eq_refl eq_refl) as H.
  rewrite (get_name_unbound ex_world 12%positive ex_node12 eq_refl eq_refl eq_refl) in H.
  discriminate H.
Qed.

(** C7, witness: nodes 10 and 14 of the sample store, which have the
    same contents. *)
Lemma Result_eq_is_identity_witness :
  results ex_world !! 10%positive = Some ex_node10 /\
  results ex_world !! 14%positive = Some ex_node14 /\
  _data ex_node10 = _data ex_node14 /\
  _role ex_node10 = _role ex_node14 /\
  Result_eq 10%positive 14%positive = false /\
  Result_ne 10%positive 14%positive = true.
Proof.
  do 4 (split; [reflexivity|]).
  apply (proj1 (Result_eq_is_identity ex_world 10%positive 14%positive
                  ex_node10 ex_node14 eq_refl eq_refl));
    [discriminate | reflexivity | reflexivity].
Defined.

(** C8, witness: node 11 of the sample store, a named [PythonResult]
    that holds the container 30. *)
Lemma clone_spec_witness :
  results ex_world !! 11%positive = Some ex_node11 /\
  klass ex_node11 = PythonResultClass /\
  get_name 11%positive ex_world = (inr (Some "y"), ex_world) /\
  exists w',
    clone ex_hashgen ex_str 11%positive ex_world = (inr 15%positive, w') /\
    results w' !! 15%positive
    = Some (mkResult PythonResultClass None (PyObj 33%positive) Computed
                     (Some "y") 5) /\
    results w' !! 11%positive = Some ex_node11 /\
    host w' !! 33%positive = Some (HList [PyObj 31%positive]) /\
    host w' !! 30%positive = Some (HList [PyObj 31%positive]).
Proof.
  do 3 (split; [reflexivity|]).
  destruct (proj2 (clone_spec ex_hashgen ex_str ex_world 11%positive ex_node11
                     eq_refl)
              (Some "y") eq_refl eq_refl) as (_ & _ & _ & Hlist).
  destruct (Hlist 30%positive [PyObj 31%positive] eq_refl eq_refl)
    as (w' & Hc & Hnew & Hold & _ & _ & Hcopy & Horig & _).
  exists w'. repeat split; assumption.
Defined.

(** C8, counterexample: the copy of node 11 holds a new container
    around the very item of the original, the container 31; emptying
    that item through the copy changes the value of the datum of the
    original. *)
Lemma clone_shares_items :
  exists rval w1 c inner w2,
    clone ex_hashgen ex_str 11%positive ex_world = (inr rval, w1) /\
    get_data 11%positive w1 = (inr (PyObj 30%positive), w1) /\
    get_data rval w1 = (inr (PyObj c), w1) /\
    c <> 30%positive /\
    host w1 !! c = Some (HList [PyObj inner]) /\
    host_set_items (PyObj inner) [] w1 = (inr tt, w2) /\
    host_value 3 (host w1) (PyObj 30%positive) = HVList [HVList [HVAtom 5]] /\
    host_value 3 (host w2) (PyObj 30%positive) = HVList [HVList []] /\
    host_value 3 (host w2) (PyObj 30%positive)
    <> host_value 3 (host w1) (PyObj 30%positive).
Proof.
  exists 15%positive, (snd (clone ex_hashgen ex_str 11%positive ex_world)),
    33%positive, 31%positive,
    (snd (host_set_items (PyObj 31%positive) []
            (snd (clone ex_hashgen ex_str 11%positive ex_world)))).
  split; [by vm_compute|]. split; [by vm_compute|]. split; [by vm_compute|].
  split; [discriminate|]. split; [by vm_compute|]. split; [by vm_compute|].
  split; [by vm_compute|]. split; [by vm_compute|]. by vm_compute.
Qed.

(** C9, witness: [py_x] bound to an object with one reference. *)
Lemma PythonResult_refcounts_witness :
  cenv ex_cstate !! py_ "x" = Some (CPtr (Some 1%positive)) /\
  refcnt ex_cstate !! 1%positive = Some 1%nat /\
  exists s1 s2 s3 s4,
    exec (declare_code "x" ++ extract_code "x") ex_cstate = Some s1 /\
    refcnt s1 = <[1%positive := 2%nat]> (refcnt ex_cstate) /\
    exec (cleanup_code "x") s1 = Some s2 /\
    refcnt s2 = refcnt ex_cstate /\
    exec (sync_code "x") s1 = Some s3 /\
    cenv s3 !! py_ "x" = Some (CPtr (Some 1%positive)) /\
    refcnt s3 = <[1%positive := 2%nat]> (refcnt ex_cstate) /\
    exec (cleanup_code "x") s3 = Some s4 /\
    refcnt s4 = refcnt ex_cstate.
Proof.
  do 2 (split; [reflexivity|]).
  destruct (PythonResult_refcounts "x" ∅ ex_cstate 1%positive 0%nat
              eq_refl eq_refl)
    as (_ & s1 & H1 & _ & _ & Hc1 & (s2 & H2 & _ & Hc2)
        & (s3 & H3 & Hp3 & Hc3 & s4 & H4 & _ & Hc4)).
  exists s1, s2, s3, s4. repeat split; assumption.
Defined.

(** C9, counterexample: with [py_x] bound to an object that has one
    reference, [declare], [extract], [sync] end with two references to
    it. *)
Lemma sync_keeps_the_extracted_reference :
  ~ (forall name s v s',
       cenv s !! py_ name = Some (CPtr (Some v)) ->
       is_Some (refcnt s !! v) ->
       exec (declare_code name ++ extract_code name ++ sync_code name) s
       = Some s' ->
       cenv s' !! py_ name = Some (CPtr (Some v)) /\
       refcnt s' = refcnt s).
Proof.
  intros Hc.
  destruct (exec (declare_code "x" ++ extract_code "x" ++ sync_code "x") ex_cstate)
    as [s'|] eqn:E; [|by vm_compute in E].
  destruct (Hc "x" ex_cstate 1%positive s' eq_refl (mk_is_Some _ _ eq_refl) E)
    as [_ Hr].
  assert (H2 : refcnt s' !! 1%positive = Some 2%nat).
  { vm_compute in E. injection E as <-. reflexivity. }
  rewrite Hr in H2. by vm_compute in H2.
Qed.

(** C10, witness: the hash of node 11 of the sample store after a
    script that clears, rebinds, renames, marks and copies it and
    constructs another node. *)
Lemma hash_fixed_and_stable_witness :
  results ex_world !! 11%positive = Some ex_node11 /\
  Result_hash 11%positive (run ex_hashgen ex_str ex_script ex_world)
  = (inr 2, run ex_hashgen ex_str ex_script ex_world).
Proof.
  split; [reflexivity|].
  apply (proj2 (hash_fixed_and_stable ex_hashgen ex_str)
           ex_script ex_world 11%positive ex_node11 eq_refl).
Defined.

(** * The further properties on the sample store *)

(** X1, witness: node 12 of the sample store, which has no role. *)
Lemma set_role_then_read_witness :
  results ex_world !! 12%positive = Some ex_node12 /\
  _role ex_node12 = None /\
  get_owner 12%positive ex_world = (inr None, ex_world) /\
  exists w',
    set_role ex_str 12%positive (20%positive, 5) ex_world = (inr tt, w') /\
    get_role 12%positive w' = (inr (Some (20%positive, 5)), w') /\
    get_owner 12%positive w' = (inr (Some 20%positive), w') /\
    get_index 12%positive w' = (inr (Some 5), w').
Proof.
  do 2 (split; [reflexivity|]).
  destruct (set_role_then_read ex_str ex_world 12%positive ex_node12 20%positive 5
              eq_refl eq_refl)
    as (Ho & _ & w' & Hs & Hr & Hw & Hi & _).
  split; [exact Ho|]. exists w'. repeat split; assumption.
Defined.

(** X2, witness: the name of node 10 of the sample store. *)
Lemma get_name_never_empty_witness :
  get_name 10%positive ex_world = (inr (Some "Add.0"), ex_world) /\
  Some "Add.0" <> Some "" /\
  Result_repr 10%positive ex_world = (inr "Add.0", ex_world).
Proof.
  split; [reflexivity|].
  destruct (get_name_never_empty ex_world 10%positive (Some "Add.0") ex_world eq_refl)
    as (_ & Hne & Hrepr).
  split; [exact Hne | exact Hrepr].
Defined.

(** X3, witness: renaming node 12 of the sample store. *)
Lemma set_name_spec_witness :
  results ex_world !! 12%positive = Some ex_node12 /\
  set_name 12%positive (VOther 30%positive) ex_world = (inl TypeError, ex_world) /\
  exists w',
    set_name 12%positive (VStr "n") ex_world = (inr tt, w') /\
    get_name 12%positive w' = (inr (Some "n"), w').
Proof.
  split; [reflexivity|].
  destruct (set_name_spec ex_world 12%positive ex_node12 eq_refl) as (Ht & Hs & _).
  split; [exact (Ht 30%positive)|].
  destruct (Hs "n" ltac:(discriminate)) as (w' & Hset & _ & Hget).
  exists w'. split; assumption.
Defined.

(** X4, witness: node 11 of the sample store, [Computed] and named. *)
Lemma Result_str_spec_witness :
  results ex_world !! 11%positive = Some ex_node11 /\
  state ex_node11 = Computed /\
  get_name 11%positive ex_world = (inr (Some "y"), ex_world) /\
  Result_str ex_str 11%positive ex_world = (inr "y:<object>", ex_world).
Proof.
  do 3 (split; [reflexivity|]).
  apply (proj2 (Result_str_spec ex_str ex_world 11%positive ex_node11 eq_refl)
           (Some "y") eq_refl eq_refl).
Defined.

(** X6, witness: the filter of node 12 of the sample store refuses the
    object 31. *)
Lemma set_data_filter_raises_witness :
  results ex_world !! 12%positive = Some ex_node12 /\
  klass ex_node12 = FilteringClass ex_filter /\
  ex_filter (PyObj 31%positive) = inl (HostError 1) /\
  exists w',
    results w' !! 12%positive = Some ex_node12 /\
    set_data 12%positive (PyObj 31%positive) ex_world = (inl (HostError 1), w').
Proof.
  do 3 (split; [reflexivity|]).
  apply (set_data_filter_raises ex_world 12%positive ex_node12 ex_filter
           (PyObj 31%positive) (HostError 1) eq_refl eq_refl
           ltac:(discriminate) ltac:(discriminate) eq_refl).
Defined.

(** X7, witness: one recorded call for an assignment to node 12 of the
    sample store. *)
Lemma set_data_filter_calls_witness :
  results ex_world !! 12%positive = Some ex_node12 /\
  filter_calls (snd (set_data 12%positive (PyObj 32%positive) ex_world))
  = [(12%positive, PyObj 32%positive)].
Proof.
  split; [reflexivity|].
  apply (set_data_filter_calls ex_world 12%positive ex_node12 (PyObj 32%positive)
           eq_refl).
Defined.

(** X8, witness: node 10 of the sample store, of class [Result]. *)
Lemma set_data_read_back_witness :
  results ex_world !! 10%positive = Some ex_node10 /\
  has_filter (klass ex_node10) = false /\
  exists w1,
    set_data 10%positive (PyObj 30%positive) ex_world = (inr tt, w1) /\
    get_data 10%positive w1 = (inr (PyObj 30%positive), w1) /\
    set_data 10%positive (PyObj 30%positive) w1 = (inr tt, w1).
Proof.
  do 2 (split; [reflexivity|]).
  apply (set_data_read_back ex_world 10%positive ex_node10 (PyObj 30%positive)
           eq_refl eq_refl).
Defined.

(** X10, witness: two constructions on the sample store. *)
Lemma construct_twice_witness :
  let w1 := snd (construct ex_hashgen ex_str ResultClass None VNone ex_world) in
  let w2 := snd (construct ex_hashgen ex_str PythonResultClass None (VStr "b") w1) in
  construct ex_hashgen ex_str ResultClass None VNone ex_world = (inr 15%positive, w1) /\
  construct ex_hashgen ex_str PythonResultClass None (VStr "b") w1 = (inr 16%positive, w2) /\
  15%positive <> 16%positive /\
  Result_eq 15%positive 16%positive = false /\
  Result_hash 15%positive w2 = (inr 5, w2) /\
  Result_hash 16%positive w2 = (inr 6, w2).
Proof.
  intros w1 w2.
  assert (H1 : construct ex_hashgen ex_str ResultClass None VNone ex_world
               = (inr 15%positive, w1)) by (by vm_compute).
  assert (H2 : construct ex_hashgen ex_str PythonResultClass None (VStr "b") w1
               = (inr 16%positive, w2)) by (by vm_compute).
  split; [exact H1|]. split; [exact H2|].
  exact (construct_twice ex_hashgen ex_str ex_world ResultClass None VNone
           PythonResultClass None (VStr "b") 15%positive w1 16%positive w2 H1 H2).
Defined.

(** X11, witness: [python_result] on the sample store with the object
    30. *)
Lemma python_result_spec_witness :
  (forall other, VStr "p" <> VOther other) /\
  exists self w',
    python_result ex_hashgen ex_str (PyObj 30%positive) None (VStr "p") ex_world
    = (inr self, w') /\
    results ex_world !! self = None /\
    results w' !! self
    = Some (mkResult PythonResultClass None (PyObj 30%positive) Computed
                     (Some "p") 5).
Proof.
  split; [discriminate|].
  apply (python_result_spec ex_hashgen ex_str ex_world (PyObj 30%positive) None
           (VStr "p")).
  discriminate.
Defined.

(** X12, witness: the copy of node 11 of the sample store. *)
Lemma clone_keeps_name_witness :
  let w' := snd (clone ex_hashgen ex_str 11%positive ex_world) in
  results ex_world !! 11%positive = Some ex_node11 /\
  get_name 11%positive ex_world = (inr (Some "y"), ex_world) /\
  clone ex_hashgen ex_str 11%positive ex_world = (inr 15%positive, w') /\
  get_name 15%positive w' = (inr (Some "y"), w') /\
  Result_hash 15%positive w' = (inr 5, w').
Proof.
  intros w'.
  assert (Hc : clone ex_hashgen ex_str 11%positive ex_world = (inr 15%positive, w'))
    by (by vm_compute).
  do 2 (split; [reflexivity|]). split; [exact Hc|].
  destruct (clone_keeps_name ex_hashgen ex_str ex_world 11%positive ex_node11
              (Some "y") 15%positive w' eq_refl eq_refl Hc) as (Hn & Hh & _).
  split; assumption.
Defined.

(** X13, witness: a script without writes of [state], run on the store
    without nodes. *)
Lemma store_ok_kept_witness :
  Forall (fun x => writes_state (snd x) = false) ex_script_plain /\
  store_ok ex_empty /\
  store_ok (run ex_hashgen ex_str ex_script_plain ex_empty).
Proof.
  assert (Hs : Forall (fun x => writes_state (snd x) = false) ex_script_plain)
    by (repeat constructor).
  assert (H0 : store_ok ex_empty).
  { intros a r Ha. simpl in Ha. rewrite lookup_empty in Ha. discriminate Ha. }
  split; [exact Hs|]. split; [exact H0|].
  exact (store_ok_kept ex_hashgen ex_str ex_script_plain ex_empty Hs H0).
Defined.

(** X14, witness: the role of node 11 of the sample store after the
    sample script, which tries to rebind it. *)
Lemma role_kept_by_scripts_witness :
  results ex_world !! 11%positive = Some ex_node11 /\
  _role ex_node11 = Some (20%positive, 1) /\
  get_role 11%positive (run ex_hashgen ex_str ex_script ex_world)
  = (inr (Some (20%positive, 1)), run ex_hashgen ex_str ex_script ex_world).
Proof.
  do 2 (split; [reflexivity|]).
  apply (role_kept_by_scripts ex_hashgen ex_str ex_script ex_world 11%positive
           ex_node11 (20%positive, 1) eq_refl eq_refl).
Defined.

(** X15, witness: [py_x] is [NULL]. *)
Lemma PythonResult_NULL_binding_witness :
  cenv ex_cstate_null !! py_ "x" = Some (CPtr None) /\
  exists s1 s2 s3,
    exec (declare_code "x" ++ extract_code "x") ex_cstate_null = Some s1 /\
    refcnt s1 = refcnt ex_cstate_null /\
    exec (cleanup_code "x") s1 = Some s2 /\
    refcnt s2 = refcnt ex_cstate_null /\
    exec (sync_code "x") s1 = Some s3 /\
    refcnt s3 = refcnt ex_cstate_null.
Proof.
  split; [reflexivity|].
  destruct (PythonResult_NULL_binding "x" ex_cstate_null eq_refl)
    as (s1 & H1 & _ & Hc1 & (s2 & H2 & Hc2) & (s3 & H3 & _ & Hc3)).
  exists s1, s2, s3. repeat split; assumption.
Defined.


(** X18, witness: node 13 of the sample store, bound to the owner 21,
    which lists no outputs. *)
Lemma unlisted_node_has_no_name_witness :
  results ex_world !! 13%positive = Some ex_node13 /\
  _role ex_node13 = Some (21%positive, 0) /\
  ops ex_world !! 21%positive = Some ex_op21 /\
  (13%positive ∉ outputs ex_op21) /\
  get_name 13%positive ex_world = (inl ValueError, ex_world) /\
  Result_str ex_str 13%positive ex_world = (inl ValueError, ex_world) /\
  clone ex_hashgen ex_str 13%positive ex_world = (inl ValueError, ex_world).
Proof.
  do 3 (split; [reflexivity|]). split; [apply not_elem_of_nil|].
  destruct (unlisted_node_has_no_name ex_hashgen ex_str ex_world 13%positive
              ex_node13 21%positive 0 ex_op21 eq_refl eq_refl eq_refl eq_refl
              (not_elem_of_nil _))
    as (Hn & Hs & _ & Hc).
  split; [exact Hn|]. split; [exact Hs | exact (Hc eq_refl)].
Defined.

(** X19, witness: operations on node 10 of the sample store leave node
    11 as it is. *)
Lemma setters_touch_one_node_witness :
  11%positive <> 10%positive /\
  results (snd (set_role ex_str 10%positive (21%positive, 0) ex_world)) !! 11%positive
  = results ex_world !! 11%positive /\
  results (snd (set_data 10%positive (PyObj 30%positive) ex_world)) !! 11%positive
  = results ex_world !! 11%positive /\
  results (snd (set_name 10%positive (VStr "n") ex_world)) !! 11%positive
  = results ex_world !! 11%positive.
Proof.
  split; [discriminate|].
  destruct (setters_touch_one_node ex_str ex_world 10%positive 11%positive
              ltac:(discriminate)) as (Hr & Hd & Hn).
  split; [exact (Hr (21%positive, 0))|].
  split; [exact (Hd (PyObj 30%positive)) | exact (Hn (VStr "n"))].
Defined.
